(** * Workload simulators: connectivity policy, biometric authentication,
      keyword spotting

    A shallow embedding of the decision logic of the three command-line
    simulators of the repository:

    - [Connectivity] : [intelligent_connectivity_prototype.cpp]
      (class [IntelligentConnectivitySim]);
    - [Biometric]    : the biometric security simulator
      (class [BiometricSecuritySim]);
    - [Voice]        : the voice recognition simulator
      (class [VoiceRecognitionSim]).

    Class members become record fields and member functions take and, where
    they can write a member, return the record.  [std::map] is a [gmap];
    [std::vector] is a [list]; [std::string] is [string]; C++ [float] is
    IEEE-754 binary32 ([spec_float] at precision 24, round to nearest even);
    lines written to [std::cout] are values of an event type collected in
    order.  Draws of the pseudo-random generators are inputs.  Wall-clock
    measurements and sleeps are left out. *)

From Stdlib Require Import ZArith Lia Bool List String.
From Stdlib Require Import Floats.SpecFloat.
From stdpp Require Import gmap strings list fin_maps.

Open Scope string_scope.
Open Scope list_scope.

#[local] Set Warnings "-clear-no-such-hyp".

(** ** [std::string] and [std::map] operations used by the simulators *)

Module Std.

(** [s.find(pat)]: position of the first occurrence of [pat] in [s], counted
    from [pos]; [None] stands for [std::string::npos]. *)
Fixpoint find_from (pat s : string) (pos : nat) : option nat :=
  if String.prefix pat s then Some pos
  else match s with
       | EmptyString => None
       | String _ rest => find_from pat rest (S pos)
       end.

Definition find (s pat : string) : option nat := find_from pat s 0.

(** [s.find(pat) != std::string::npos] *)
Definition found (s pat : string) : bool :=
  match find s pat with Some _ => true | None => false end.

(** [pat] occurs in [s] as a contiguous substring. *)
Definition contains (s pat : string) : Prop :=
  exists pre post : string, s = pre +:+ pat +:+ post.

(** [m[k]] on a [std::map]: the mapped value, after inserting a
    value-initialised one when [k] is absent. *)
Definition subscript {V : Type} (dflt : V) (k : string) (m : gmap string V)
  : V * gmap string V :=
  match m !! k with
  | Some v => (v, m)
  | None => (dflt, <[k := dflt]> m)
  end.

(** [m.find(k) == m.end()] *)
Definition absent {V : Type} (k : string) (m : gmap string V) : bool :=
  match m !! k with Some _ => false | None => true end.

End Std.

(** ** C++ [float]: IEEE-754 binary32 *)

Module Float32.

Definition prec : Z := 24.
Definition emax : Z := 128.

Definition zero : spec_float := S754_zero false.

Definition add : spec_float -> spec_float -> spec_float := SFadd prec emax.
Definition mul : spec_float -> spec_float -> spec_float := SFmul prec emax.
Definition div : spec_float -> spec_float -> spec_float := SFdiv prec emax.

(** Conversion of an integer, rounded to nearest. *)
Definition of_Z (z : Z) : spec_float := binary_normalize prec emax z 0 false.

(** Conversion of a [size_t]. *)
Definition of_size (n : nat) : spec_float := of_Z (Z.of_nat n).

(** The literal written [num/den] in decimal, as the nearest binary32 number;
    [num] and [den] are small enough to convert exactly, so the one rounding
    is that of the division. *)
Definition lit (num den : Z) : spec_float := div (of_Z num) (of_Z den).

(** [x > y] *)
Definition gt (x y : spec_float) : bool := SFltb y x.

(** Neither NaN nor below zero: sign bit clear. *)
Definition nonneg (x : spec_float) : bool :=
  match x with
  | S754_zero s | S754_infinity s | S754_finite s _ _ => negb s
  | S754_nan => false
  end.

(** Above zero (infinity included). *)
Definition positive_value (x : spec_float) : bool :=
  match x with
  | S754_infinity s | S754_finite s _ _ => negb s
  | S754_zero _ | S754_nan => false
  end.

(** Zero of either sign. *)
Definition is_zero (x : spec_float) : bool :=
  match x with S754_zero _ => true | _ => false end.

(** A finite number above zero. *)
Definition finite_positive (x : spec_float) : bool :=
  match x with S754_finite s _ _ => negb s | _ => false end.

End Float32.

(** ** The connectivity policy simulator *)

Module Connectivity.

Record NetworkPolicy := mkPolicy {
  securityLevel : string;
  requirePIN : bool;
  dataLimit : Z;
  connectionType : string
}.

(** A value-initialised [NetworkPolicy], as [std::map::operator[]] makes. *)
Definition emptyPolicy : NetworkPolicy := mkPolicy "" false 0 "".

Record Sim := mkSim {
  trustedDevices : list string;
  policyRules : gmap string NetworkPolicy
}.

Definition initializePolicies (sim : Sim) : Sim :=
  let r := policyRules sim in
  let r := <["home_trusted" := mkPolicy "LOW" false 1000 "FULL_ACCESS"]> r in
  let r := <["public_trusted" := mkPolicy "MEDIUM" true 500 "LIMITED_ACCESS"]> r in
  let r := <["untrusted" := mkPolicy "HIGH" true 100 "RESTRICTED"]> r in
  let r := <["emergency" := mkPolicy "CRITICAL" true 50 "EMERGENCY_ONLY"]> r in
  mkSim (trustedDevices sim) r.

Definition initializeTrustedDevices (sim : Sim) : Sim :=
  mkSim ["home_wifi"; "office_bt"; "car_system"; "personal_tablet"]
        (policyRules sim).

(** The constructor: both members start empty, then the two initialisers
    run. *)
Definition construct : Sim :=
  initializeTrustedDevices (initializePolicies (mkSim [] ∅)).

Definition scanNetworks (location : string) : list string :=
  let networks :=
    if String.eqb location "Home" then
      ["Home_WiFi_5G"; "Home_WiFi_2G"; "Neighbor_WiFi"]
    else if String.eqb location "Office" then
      ["Office_Secure"; "Office_Guest"; "Conference_Room"]
    else if String.eqb location "Public Cafe" then
      ["Cafe_Free_WiFi"; "Cafe_Premium"; "Public_Hotspot"]
    else if String.eqb location "Shopping Mall" then
      ["Mall_Free"; "Store_WiFi"; "FoodCourt_Network"]
    else if String.eqb location "Airport" then
      ["Airport_Free"; "Airport_Premium"; "Airline_Lounge"]
    else ["Cellular_4G"; "Cellular_3G"] in
  networks ++ ["Cellular_Data"].

(** [scanDevices]: [dis i] is the [i]-th draw of the call's generator, a
    number from 0 to 3.  A location other than Home and Office makes no
    first draw, so the two later draws are numbered from [k]. *)
Definition scanDevices (location : string) (dis : nat -> Z) : list string :=
  let '(devices, k) :=
    if String.eqb location "Home" then
      (["home_wifi"; "smart_tv"]
         ++ (if (1 <? dis 0%nat)%Z then ["car_system"] else []), 1%nat)
    else if String.eqb location "Office" then
      (["office_bt"]
         ++ (if (1 <? dis 0%nat)%Z then ["printer_01"] else []), 1%nat)
    else ([], 0%nat) in
  devices
    ++ (if (0 <? dis k)%Z then ["unknown_device_1"] else [])
    ++ (if (1 <? dis (S k))%Z then ["strange_bt_device"] else []).

(** The inner loop of [evaluateTrustLevel]: [true] when it leaves through
    [break], that is when [device] equals some trusted device. *)
Fixpoint matchesTrusted (device : string) (trusted : list string) : bool :=
  match trusted with
  | [] => false
  | t :: rest => if String.eqb device t then true
                 else matchesTrusted device rest
  end.

(** The outer loop, threading [trustedCount]. *)
Fixpoint countTrusted (devices trusted : list string) (trustedCount : Z) : Z :=
  match devices with
  | [] => trustedCount
  | device :: rest =>
      countTrusted rest trusted
        (if matchesTrusted device trusted then trustedCount + 1
         else trustedCount)%Z
  end.

Definition evaluateTrustLevel (sim : Sim) (devices : list string)
           (location : string) : string :=
  let trustedCount := countTrusted devices (trustedDevices sim) 0 in
  if String.eqb location "Home" && (2 <=? trustedCount)%Z then "home_trusted"
  else if String.eqb location "Office" && (1 <=? trustedCount)%Z then "public_trusted"
  else if (1 <=? trustedCount)%Z then "public_trusted"
  else if String.eqb location "Rural Area" then "emergency"
  else "untrusted".

(** [applyPolicy]: the lookup is [policyRules[trustLevel]], which can write
    the table; the printed lines repeat the fields of the returned policy. *)
Definition applyPolicy (trustLevel location : string) (sim : Sim)
  : NetworkPolicy * Sim :=
  let '(policy, rules) := Std.subscript emptyPolicy trustLevel (policyRules sim) in
  (policy, mkSim (trustedDevices sim) rules).

(** The labels printed by [makeConnectivityDecisions]. *)
Inductive Access := FULL | LIMITED | AVOID | RESTRICTED | BLOCKED | EMERGENCY.

(** One printed line: label, network name, trailing remark. *)
Record Decision := mkDecision {
  access : Access;
  network : string;
  remark : string
}.

(** The body of the loop of [makeConnectivityDecisions] for one network. *)
Definition decide_network (policy : NetworkPolicy) (network : string) : Decision :=
  if String.eqb (securityLevel policy) "LOW" then
    mkDecision FULL network " (trusted)"
  else if String.eqb (securityLevel policy) "MEDIUM" then
    if Std.found network "Secure" || Std.found network "Office" then
      mkDecision LIMITED network " (secured)"
    else mkDecision AVOID network " (unsecured)"
  else if String.eqb (securityLevel policy) "HIGH" then
    if String.eqb network "Cellular_Data" then
      mkDecision RESTRICTED network " (cellular)"
    else mkDecision BLOCKED network " (untrusted)"
  else
    if String.eqb network "Cellular_Data" then
      mkDecision EMERGENCY network " (minimal)"
    else mkDecision BLOCKED network "".

(** The lines printed after the heading, in order. *)
Fixpoint makeConnectivityDecisions (networks : list string)
         (policy : NetworkPolicy) : list Decision :=
  match networks with
  | [] => []
  | network :: rest =>
      decide_network policy network :: makeConnectivityDecisions rest policy
  end.

(** [testEnvironment] without its timing: the decisions printed and the
    simulator afterwards. *)
Definition testEnvironment (location : string) (dis : nat -> Z) (sim : Sim)
  : list Decision * Sim :=
  let availableNetworks := scanNetworks location in
  let nearbyDevices := scanDevices location dis in
  let trustLevel := evaluateTrustLevel sim nearbyDevices location in
  let '(policy, sim') := applyPolicy trustLevel location sim in
  (makeConnectivityDecisions availableNetworks policy, sim').

(** *** The specification's vocabulary *)

(** The static trusted-device set. *)
Definition trustedDeviceSet : gset string :=
  {[ "home_wifi"; "office_bt"; "car_system"; "personal_tablet" ]}.

(** Intersection size between the devices and the trusted-device set: how
    many distinct identifiers lie in both. *)
Definition intersectionSize (devices : list string) : Z :=
  Z.of_nat (size (list_to_set devices ∩ trustedDeviceSet)).

(** How many entries of [devices] lie in the trusted-device set, an
    identifier listed twice counting twice. *)
Definition trustedEntries (devices : list string) : Z :=
  Z.of_nat (length (filter (λ d, d ∈ trustedDeviceSet) devices)).

(** The decision order, first match wins. *)
Definition tierFor (location : string) (trustedCount : Z) : string :=
  if decide (location = "Home" ∧ (2 <= trustedCount)%Z) then "home_trusted"
  else if decide (location = "Office" ∧ (1 <= trustedCount)%Z) then "public_trusted"
  else if decide (1 <= trustedCount)%Z then "public_trusted"
  else if decide (location = "Rural Area") then "emergency"
  else "untrusted".

(** The four tier names. *)
Definition tierNames : list string :=
  ["home_trusted"; "public_trusted"; "untrusted"; "emergency"].

End Connectivity.

(** ** The biometric security simulator *)

Module Biometric.

Record UserProfile := mkProfile {
  voicePrintHash : string;
  pin : string;
  trustedDevices : list string
}.

(** A value-initialised [UserProfile]. *)
Definition emptyProfile : UserProfile := mkProfile "" "" [].

Record Sim := mkSim {
  userDatabase : gmap string UserProfile;
  nearbyDevices : list string
}.

Definition initializeUserDatabase (sim : Sim) : Sim :=
  let user1 := mkProfile "voice_hash_1234" "5678" ["home_bt"; "car_bt"] in
  let user2 := mkProfile "voice_hash_5678" "1234" ["office_wifi"] in
  let user3 := mkProfile "voice_hash_9012" "4321" ["home_bt"; "personal_device"] in
  let db := userDatabase sim in
  let db := <["thabo" := user1]> db in
  let db := <["matseliso" := user2]> db in
  let db := <["ntate_john" := user3]> db in
  mkSim db (nearbyDevices sim).

Definition construct : Sim := initializeUserDatabase (mkSim ∅ []).

Definition scanNearbyDevices (sim : Sim) : Sim :=
  mkSim (userDatabase sim) ["home_bt"; "unknown_device"; "office_wifi"; "car_bt"].

(** *** The world outside the simulator

    Each synthetic check seeds a generator of its own and draws one number
    from the interval from 0 to 1; [draws] lists the numbers the checks will
    get, [drawn] counts those handed out.  [calls] records which checks ran
    and [out] the lines printed, both in order. *)

Inductive Call :=
| CallVoice (storedVoicePrint : string)
| CallPIN (correctPIN : string).

Inductive Line :=
| NotFound (userId : string)
| Report (userId : string) (authenticated : bool) (authMethod contextInfo : string).

Record World := mkWorld {
  draws : nat -> spec_float;
  drawn : nat;
  calls : list Call;
  out : list Line
}.

(** Computations that read and write the world. *)
Definition IO (A : Type) : Type := World -> A * World.

#[global] Instance io_ret : MRet IO := fun A (a : A) w => (a, w).

#[global] Instance io_bind : MBind IO :=
  fun A B (k : A -> IO B) (c : IO A) w => let '(a, w') := c w in k a w'.

Definition draw : IO spec_float :=
  fun w => (draws w (drawn w), mkWorld (draws w) (S (drawn w)) (calls w) (out w)).

Definition called (c : Call) : IO unit :=
  fun w => (tt, mkWorld (draws w) (drawn w) (calls w ++ [c]) (out w)).

(** The world after one more printed line. *)
Definition printed (l : Line) (w : World) : World :=
  mkWorld (draws w) (drawn w) (calls w) (out w ++ [l]).

Definition print (l : Line) : IO unit := fun w => (tt, printed l w).

(** 70% success rate *)
Definition authenticateVoice (storedVoicePrint : string) : IO bool :=
  called (CallVoice storedVoicePrint) ;;
  x ← draw;
  mret (Float32.gt x (Float32.lit 3 10)).

(** 80% success rate *)
Definition verifyPIN (correctPIN : string) : IO bool :=
  called (CallPIN correctPIN) ;;
  x ← draw;
  mret (Float32.gt x (Float32.lit 2 10)).

(** The inner loop of [isTrustedEnvironment]: [true] when it returns. *)
Fixpoint nearbyHas (trustedDevice : string) (nearby : list string) : bool :=
  match nearby with
  | [] => false
  | nearbyDevice :: rest =>
      if String.eqb trustedDevice nearbyDevice then true
      else nearbyHas trustedDevice rest
  end.

(** The outer loop. *)
Fixpoint anyNearby (trusted nearby : list string) : bool :=
  match trusted with
  | [] => false
  | trustedDevice :: rest =>
      if nearbyHas trustedDevice nearby then true else anyNearby rest nearby
  end.

Definition isTrustedEnvironment (sim : Sim) (profile : UserProfile) : bool :=
  anyNearby (trustedDevices profile) (nearbyDevices sim).

(** [authenticateUser] without its timing.  The simulator is returned because
    [userDatabase[userId]] can write the table. *)
Definition authenticateUser (userId : string) (sim : Sim) : IO Sim :=
  if Std.absent userId (userDatabase sim) then
    print (NotFound userId) ;;
    mret sim
  else
    let '(profile, db) := Std.subscript emptyProfile userId (userDatabase sim) in
    let sim := mkSim db (nearbyDevices sim) in
    voiceAuth ← authenticateVoice (voicePrintHash profile);
    let trustedEnvironment := isTrustedEnvironment sim profile in
    result ←
      (if voiceAuth && trustedEnvironment then
         mret (true, "Voice", " (Trusted Environment)")
       else if voiceAuth then
         mret (true, "Voice", "")
       else
         authenticated ← verifyPIN (pin profile);
         mret (authenticated, "PIN", ""));
    let '(authenticated, authMethod, contextInfo) := result in
    print (Report userId authenticated authMethod contextInfo) ;;
    mret sim.

Definition testUserAuthentication (sim : Sim) : IO Sim :=
  let sim := scanNearbyDevices sim in
  sim ← authenticateUser "thabo" sim;
  sim ← authenticateUser "matseliso" sim;
  sim ← authenticateUser "ntate_john" sim;
  authenticateUser "unknown_user" sim.

(** *** The specification's vocabulary *)

(** What one attempt reports. *)
Inductive Outcome :=
| OutNotFound
| OutVoice (trustedEnvironmentNote : bool)
| OutPIN (verified : bool).

Definition lineOf (userId : string) (o : Outcome) : Line :=
  match o with
  | OutNotFound => NotFound userId
  | OutVoice true => Report userId true "Voice" " (Trusted Environment)"
  | OutVoice false => Report userId true "Voice" ""
  | OutPIN ok => Report userId ok "PIN" ""
  end.

(** The outcome policy. *)
Definition outcomePolicy (voiceAuth trustedEnvironment pinVerified : bool) : Outcome :=
  if voiceAuth && trustedEnvironment then OutVoice true
  else if voiceAuth then OutVoice false
  else OutPIN pinVerified.

(** The method a printed line names, if it names one. *)
Definition methodOf (l : Line) : option string :=
  match l with
  | NotFound _ => None
  | Report _ _ authMethod _ => Some authMethod
  end.

End Biometric.

(** ** The voice recognition simulator *)

Module Voice.

Record Sim := mkSim {
  keywordModels : list (list spec_float);
  audioBuffer : list spec_float
}.

Definition RESPONSE_THRESHOLD : spec_float := Float32.lit 85 100.

(** The three models, [model(256, 0.1f * (i + 1))] for [i] from 0 to 2, are
    pushed behind the ones present. *)
Definition initializeKeywordModels (sim : Sim) : Sim :=
  let model (i : Z) :=
    repeat (Float32.mul (Float32.lit 1 10) (Float32.of_Z (i + 1))) 256 in
  mkSim (keywordModels sim ++ [model 0%Z; model 1%Z; model 2%Z]) (audioBuffer sim).

Definition construct : Sim := initializeKeywordModels (mkSim [] []).

(** [extractFeatures]: 256 draws [dis 0], [dis 1], ... of the normal
    distribution. *)
Definition extractFeatures (dis : nat -> spec_float) : list spec_float :=
  map dis (seq 0 256).

(** [v[i]]; the loop below reads only inside both vectors. *)
Definition at_index (v : list spec_float) (i : nat) : spec_float :=
  nth i v Float32.zero.

(** The divisor of [computeSimilarity]. *)
Definition divisor (a b : list spec_float) : nat :=
  Nat.min (length a) (length b).

Definition computeSimilarity (a b : list spec_float) : spec_float :=
  let similarity :=
    fold_left
      (fun similarity i =>
         Float32.add similarity (Float32.mul (at_index a i) (at_index b i)))
      (seq 0 (divisor a b)) Float32.zero in
  Float32.div (SFabs similarity) (Float32.of_size (divisor a b)).

(** The loop of [matchKeywords]: the value returned, and how many models had
    their similarity computed before the loop was left. *)
Fixpoint scanModels (models : list (list spec_float)) (features : list spec_float)
  : bool * nat :=
  match models with
  | [] => (false, 0)
  | model :: rest =>
      let confidence := computeSimilarity features model in
      if Float32.gt confidence RESPONSE_THRESHOLD then (true, 1)
      else let '(r, n) := scanModels rest features in (r, S n)
  end.

Definition matchKeywords (sim : Sim) (features : list spec_float) : bool :=
  fst (scanModels (keywordModels sim) features).

Definition BUFFER_SIZE : nat := 1024.

(** [simulateAudioCapture]: the buffer is cleared, then filled with
    [BUFFER_SIZE] draws [dis 0], [dis 1], ... of the uniform distribution. *)
Definition simulateAudioCapture (dis : nat -> spec_float) (sim : Sim) : Sim :=
  mkSim (keywordModels sim) ([] ++ map dis (seq 0 BUFFER_SIZE)).

(** One round of the loops of [testRealTimeProcessing] and
    [testKeywordDetection]: capture, extract, match. *)
Definition detectOnce (uniform normal : nat -> spec_float) (sim : Sim)
  : bool * Sim :=
  let sim := simulateAudioCapture uniform sim in
  let features := extractFeatures normal in
  (matchKeywords sim features, sim).

(** *** The specification's vocabulary *)

(** The model's similarity to the features exceeds the threshold. *)
Definition exceeds (features model : list spec_float) : Prop :=
  Float32.gt (computeSimilarity features model) RESPONSE_THRESHOLD = true.

(** The sum of [a_i * b_i] over the indices both vectors have, added up from
    the left. *)
Definition dot (a b : list spec_float) : spec_float :=
  fold_left (fun acc p => Float32.add acc (Float32.mul (fst p) (snd p)))
            (combine a b) Float32.zero.

(** The sum of the squares [a_i * a_i], added up from the left. *)
Definition sumSquares (a : list spec_float) : spec_float :=
  fold_left (fun acc x => Float32.add acc (Float32.mul x x)) a Float32.zero.

End Voice.

(** ** The connectivity simulator: scenario drivers and menu *)

Module ConnectivityProgram.

Import Connectivity.

(** What the drivers print, without the timings. *)
Inductive Event :=
| Tested (location : string) (availableNetworks nearbyDevices : list string)
         (policy : NetworkPolicy) (decisions : list Decision)
| Battery (mode : string) (networksFound devicesFound : nat) (impact : Z)
| WorkloadInfo
| Exiting
| InvalidOption.

(** The world outside the simulator: every call of [scanDevices] seeds a
    generator of its own; [generators k] gives the draws of the [k]-th one
    seeded, [seeded] counts them, [shown] is what was printed, in order. *)
Record World := mkWorld {
  generators : nat -> nat -> Z;
  seeded : nat;
  shown : list Event
}.

Definition IO (A : Type) : Type := World -> A * World.

#[global] Instance io_ret : MRet IO := fun A (a : A) w => (a, w).

#[global] Instance io_bind : MBind IO :=
  fun A B (k : A -> IO B) (c : IO A) w => let '(a, w') := c w in k a w'.

Definition newGenerator : IO (nat -> Z) :=
  fun w => (generators w (seeded w),
            mkWorld (generators w) (S (seeded w)) (shown w)).

Definition show (e : Event) : IO unit :=
  fun w => (tt, mkWorld (generators w) (seeded w) (shown w ++ [e])).

(** [testEnvironment], printing included. *)
Definition testEnvironment (location : string) (sim : Sim) : IO Sim :=
  dis ← newGenerator;
  let availableNetworks := scanNetworks location in
  let nearbyDevices := scanDevices location dis in
  let trustLevel := evaluateTrustLevel sim nearbyDevices location in
  let '(policy, sim) := applyPolicy trustLevel location sim in
  show (Tested location availableNetworks nearbyDevices policy
               (makeConnectivityDecisions availableNetworks policy)) ;;
  mret sim.

Definition scenarios : list string :=
  ["Home"; "Office"; "Public Cafe"; "Shopping Mall"; "Airport"; "Rural Area"].

(** The loop of [testMultipleScenarios]. *)
Fixpoint testScenarios (scenarios : list string) (sim : Sim) : IO Sim :=
  match scenarios with
  | [] => mret sim
  | scenario :: rest =>
      sim ← testEnvironment scenario sim;
      testScenarios rest sim
  end.

Definition testMultipleScenarios (sim : Sim) : IO Sim :=
  testScenarios scenarios sim.

Definition powerModes : list string :=
  ["HIGH_POWER"; "BALANCED"; "LOW_POWER"; "ULTRA_SAVE"].

Definition scanIntensityOf (mode : string) : Z :=
  if String.eqb mode "HIGH_POWER" then 4
  else if String.eqb mode "BALANCED" then 2
  else if String.eqb mode "LOW_POWER" then 1
  else 0.

(** The scanning loop of [testBatteryOptimization], [todo] rounds to go. *)
Fixpoint scanRounds (todo : nat) (networks devices : list string)
  : IO (list string * list string) :=
  match todo with
  | O => mret (networks, devices)
  | S todo =>
      dis ← newGenerator;
      scanRounds todo (scanNetworks "Test") (scanDevices "Test" dis)
  end.

(** The loop over the power modes. *)
Fixpoint testModes (modes : list string) : IO unit :=
  match modes with
  | [] => mret tt
  | mode :: rest =>
      let scanIntensity := scanIntensityOf mode in
      found ← scanRounds (Z.to_nat scanIntensity) [] [];
      show (Battery mode (length (fst found)) (length (snd found))
                    (scanIntensity * 10)%Z) ;;
      testModes rest
  end.

Definition testBatteryOptimization : IO unit := testModes powerModes.

(** The [switch] of [main]. *)
Definition dispatch (choice : Z) (sim : Sim) : IO Sim :=
  if (choice =? 1)%Z then testEnvironment "Home" sim
  else if (choice =? 2)%Z then testEnvironment "Office" sim
  else if (choice =? 3)%Z then testEnvironment "Public Cafe" sim
  else if (choice =? 4)%Z then testMultipleScenarios sim
  else if (choice =? 5)%Z then testBatteryOptimization ;; mret sim
  else if (choice =? 6)%Z then show WorkloadInfo ;; mret sim
  else if (choice =? 7)%Z then show Exiting ;; mret sim
  else show InvalidOption ;; mret sim.

(** The [do ... while(choice != 7)] loop of [main] over the numbers read from
    standard input, as long as reading gives one.  The result tells whether
    the loop was left through choice 7. *)
Fixpoint menuLoop (choices : list Z) (sim : Sim) : IO (bool * Sim) :=
  match choices with
  | [] => mret (false, sim)
  | choice :: rest =>
      sim ← dispatch choice sim;
      if (choice =? 7)%Z then mret (true, sim) else menuLoop rest sim
  end.

Definition main (choices : list Z) : IO (bool * Sim) :=
  menuLoop choices construct.

(** *** Vocabulary of the properties *)

(** The tiers, from least to most trusted. *)
Definition tierRank (tier : string) : nat :=
  if String.eqb tier "home_trusted" then 2
  else if String.eqb tier "public_trusted" then 1
  else 0.

(** What a test at [location] prints, given the draws [dis] of its device
    scan. *)
Definition testedEvent (location : string) (dis : nat -> Z) : Event :=
  let availableNetworks := scanNetworks location in
  let nearbyDevices := scanDevices location dis in
  let policy :=
    fst (applyPolicy (evaluateTrustLevel construct nearbyDevices location)
                     location construct) in
  Tested location availableNetworks nearbyDevices policy
         (makeConnectivityDecisions availableNetworks policy).

(** The security level a printed test names. *)
Definition levelOf (e : Event) : option string :=
  match e with
  | Tested _ _ _ policy _ => Some (securityLevel policy)
  | _ => None
  end.

(** The labels of the decisions a printed test lists. *)
Definition accessesOf (e : Event) : list Access :=
  match e with
  | Tested _ _ _ _ decisions => map access decisions
  | _ => []
  end.

(** The security level that a test at [location] applies, given the first
    draw of its device scan. *)
Definition levelAt (location : string) (firstDraw : Z) : string :=
  if String.eqb location "Home" then
    if (1 <? firstDraw)%Z then "LOW" else "MEDIUM"
  else if String.eqb location "Office" then "MEDIUM"
  else if String.eqb location "Rural Area" then "CRITICAL"
  else "HIGH".

End ConnectivityProgram.

(** ** The biometric simulator: scenario drivers and menu *)

Module BiometricProgram.

Import Biometric.

Definition environments : list string := ["Home"; "Office"; "Public"; "Unknown"].

(** The device scan that [testContextAwareness] stages for an environment. *)
Definition environmentDevices (env : string) : list string :=
  if String.eqb env "Home" then ["home_bt"; "car_bt"; "tv_system"]
  else if String.eqb env "Office" then ["office_wifi"; "printer_bt"]
  else if String.eqb env "Public" then ["public_wifi"; "unknown_device1"]
  else ["strange_device"; "unknown_network"].

(** The loop of [testContextAwareness]. *)
Fixpoint testEnvironments (envs : list string) (sim : Sim) : IO Sim :=
  match envs with
  | [] => mret sim
  | env :: rest =>
      let sim := mkSim (userDatabase sim) (environmentDevices env) in
      sim ← authenticateUser "thabo" sim;
      testEnvironments rest sim
  end.

Definition testContextAwareness (sim : Sim) : IO Sim :=
  testEnvironments environments sim.

(** 60% success rate *)
Definition quickAuthTest : IO bool :=
  x ← draw;
  mret (Float32.gt x (Float32.lit 4 10)).

(** The loop of [stressTest], [todo] attempts to go. *)
Fixpoint stressAttempts (todo : nat) (successCount : Z) : IO Z :=
  match todo with
  | O => mret successCount
  | S todo =>
      success ← quickAuthTest;
      stressAttempts todo
        (if success : bool then successCount + 1 else successCount)%Z
  end.

(** [stressTest] without its timing; the count returned is the one printed
    as "Successful". *)
Definition stressTest (sim : Sim) : IO (Z * Sim) :=
  let sim := scanNearbyDevices sim in
  successCount ← stressAttempts 5 0;
  mret (successCount, sim).

(** The [switch] of [main]; of what is printed, [out] keeps the lines of the
    authentication attempts. *)
Definition dispatch (choice : Z) (sim : Sim) : IO Sim :=
  if (choice =? 1)%Z then testUserAuthentication sim
  else if (choice =? 2)%Z then testContextAwareness sim
  else if (choice =? 3)%Z then r ← stressTest sim; mret (snd r)
  else mret sim.

(** The [do ... while(choice != 5)] loop of [main] over the numbers read from
    standard input, as long as reading gives one.  The result tells whether
    the loop was left through choice 5. *)
Fixpoint menuLoop (choices : list Z) (sim : Sim) : IO (bool * Sim) :=
  match choices with
  | [] => mret (false, sim)
  | choice :: rest =>
      sim ← dispatch choice sim;
      if (choice =? 5)%Z then mret (true, sim) else menuLoop rest sim
  end.

Definition main (choices : list Z) : IO (bool * Sim) :=
  menuLoop choices construct.

(** *** Vocabulary of the properties *)

(** A printed line without its environment note. *)
Definition verdictOf (l : Line) : Line :=
  match l with
  | NotFound userId => NotFound userId
  | Report userId authenticated authMethod _ =>
      Report userId authenticated authMethod ""
  end.

Definition userOf (l : Line) : string :=
  match l with
  | NotFound userId => userId
  | Report userId _ _ _ => userId
  end.

(** The environment note of a report. *)
Definition noteOf (l : Line) : string :=
  match l with
  | NotFound _ => ""
  | Report _ _ _ contextInfo => contextInfo
  end.

(** The line reports a failed attempt. *)
Definition failed (l : Line) : bool :=
  match l with
  | NotFound _ => false
  | Report _ authenticated _ _ => negb authenticated
  end.

(** The voice check on the next draw of [w], and the PIN check on the one
    after it. *)
Definition voiceDraw (w : World) : bool :=
  Float32.gt (draws w (drawn w)) (Float32.lit 3 10).

Definition pinDraw (w : World) : bool :=
  Float32.gt (draws w (S (drawn w))) (Float32.lit 2 10).

(** How many of the [n] draws from the [k]-th on are above 0.4. *)
Fixpoint quickSuccesses (draws : nat -> spec_float) (k n : nat) : Z :=
  match n with
  | O => 0
  | S n =>
      ((if Float32.gt (draws k) (Float32.lit 4 10) then 1 else 0)
       + quickSuccesses draws (S k) n)%Z
  end.

End BiometricProgram.

(** ** The voice simulator: test drivers and menu *)

Module VoiceProgram.

Import Voice.

(** What the drivers print, without the timings. *)
Inductive Event :=
| Frame (frame : nat) (keywordDetected : bool)
| Test (test : nat) (detected : bool)
| DetectionRate (detections tests percent : Z)
| WorkloadInfo
| Exiting
| InvalidOption.

(** The world outside the simulator: [simulateAudioCapture] and
    [extractFeatures] each seed a generator of their own at every call;
    [generators k] gives the draws of the [k]-th one seeded. *)
Record World := mkWorld {
  generators : nat -> nat -> spec_float;
  seeded : nat;
  shown : list Event
}.

Definition IO (A : Type) : Type := World -> A * World.

#[global] Instance io_ret : MRet IO := fun A (a : A) w => (a, w).

#[global] Instance io_bind : MBind IO :=
  fun A B (k : A -> IO B) (c : IO A) w => let '(a, w') := c w in k a w'.

Definition newGenerator : IO (nat -> spec_float) :=
  fun w => (generators w (seeded w),
            mkWorld (generators w) (S (seeded w)) (shown w)).

Definition show (e : Event) : IO unit :=
  fun w => (tt, mkWorld (generators w) (seeded w) (shown w ++ [e])).

(** The pipeline run for every frame and every test: capture, extract,
    match. *)
Definition detect (sim : Sim) : IO (bool * Sim) :=
  uniform ← newGenerator;
  normal ← newGenerator;
  mret (detectOnce uniform normal sim).

(** The loop of [testRealTimeProcessing], from frame [frame] on. *)
Fixpoint processFrames (todo frame : nat) (sim : Sim) : IO Sim :=
  match todo with
  | O => mret sim
  | S todo =>
      r ← detect sim;
      show (Frame frame (fst r)) ;;
      processFrames todo (S frame) (snd r)
  end.

Definition testRealTimeProcessing (sim : Sim) : IO Sim :=
  processFrames 8 0 sim.

(** The loop of [testKeywordDetection], from test [i] on. *)
Fixpoint detectionTests (todo i : nat) (detections : Z) (sim : Sim)
  : IO (Z * Sim) :=
  match todo with
  | O => mret (detections, sim)
  | S todo =>
      r ← detect sim;
      show (Test i (fst r)) ;;
      detectionTests todo (S i)
        (if fst r : bool then detections + 1 else detections)%Z (snd r)
  end.

Definition testKeywordDetection (sim : Sim) : IO Sim :=
  let tests := 10%Z in
  r ← detectionTests 10 0 0 sim;
  show (DetectionRate (fst r) tests (Z.quot (fst r * 100) tests)) ;;
  mret (snd r).

(** The [switch] of [main]. *)
Definition dispatch (choice : Z) (sim : Sim) : IO Sim :=
  if (choice =? 1)%Z then testRealTimeProcessing sim
  else if (choice =? 2)%Z then testKeywordDetection sim
  else if (choice =? 3)%Z then show WorkloadInfo ;; mret sim
  else if (choice =? 4)%Z then show Exiting ;; mret sim
  else show InvalidOption ;; mret sim.

(** The [do ... while(choice != 4)] loop of [main] over the numbers read from
    standard input, as long as reading gives one.  The result tells whether
    the loop was left through choice 4. *)
Fixpoint menuLoop (choices : list Z) (sim : Sim) : IO (bool * Sim) :=
  match choices with
  | [] => mret (false, sim)
  | choice :: rest =>
      sim ← dispatch choice sim;
      if (choice =? 4)%Z then mret (true, sim) else menuLoop rest sim
  end.

Definition main (choices : list Z) : IO (bool * Sim) :=
  menuLoop choices construct.

(** *** Vocabulary of the properties *)

(** Neither NaN nor infinite. *)
Definition is_finite (x : spec_float) : bool :=
  match x with
  | S754_zero _ | S754_finite _ _ _ => true
  | S754_infinity _ | S754_nan => false
  end.

(** The line of a test that detected a keyword. *)
Definition isDetection (e : Event) : bool :=
  match e with
  | Test _ detected => detected
  | _ => false
  end.

(** How many of the printed tests detected a keyword. *)
Definition detectedCount (events : list Event) : Z :=
  Z.of_nat (length (List.filter isDetection events)).

(** The rates that [testKeywordDetection] prints. *)
Definition ratesOf (events : list Event) : list (Z * Z * Z) :=
  omap (λ e, match e with
             | DetectionRate detections tests percent =>
                 Some (detections, tests, percent)
             | _ => None
             end) events.

End VoiceProgram.

(** * Properties *)

(** ** Strings and maps *)

Module StdFacts.

Lemma prefix_app (p s : string) :
  String.prefix p s = true <-> exists t, s = p +:+ t.
Proof.
  revert s. induction p as [|c p IH]; intros s.
  - split; [intros _; exists s; reflexivity | intros _; now destruct s].
  - destruct s as [|c' s]; simpl.
    + split; [discriminate | intros [t Ht]; discriminate].
    + destruct (Ascii.ascii_dec c c') as [->|Hne].
      * rewrite IH. split; intros [t Ht]; exists t; [now rewrite Ht | now injection Ht].
      * split; [discriminate | intros [t Ht]; injection Ht as Hc _; congruence].
Qed.

Lemma find_from_unfold (pat s : string) (pos : nat) :
  Std.find_from pat s pos =
  if String.prefix pat s then Some pos
  else match s with
       | EmptyString => None
       | String _ rest => Std.find_from pat rest (S pos)
       end.
Proof. now destruct s. Qed.

Lemma find_from_Some (pat s : string) (pos : nat) :
  is_Some (Std.find_from pat s pos) <-> Std.contains s pat.
Proof.
  revert pos. induction s as [|c s IH]; intros pos;
    rewrite find_from_unfold;
    match goal with |- context [String.prefix ?p ?t] =>
      destruct (String.prefix p t) eqn:Hp end.
  - split; [intros _ | intros _; now exists pos].
    apply prefix_app in Hp as [t Ht]. exists "", t. exact Ht.
  - split; [intros [x Hx]; discriminate |].
    intros (pre & post & H). exfalso.
    destruct pre; [|discriminate]. simpl in H.
    assert (String.prefix pat "" = true) as Hq by (apply prefix_app; eauto).
    congruence.
  - split; [intros _ | intros _; now exists pos].
    apply prefix_app in Hp as [t Ht]. exists "", t. exact Ht.
  - rewrite IH. split.
    + intros (pre & post & H). exists (String c pre), post. simpl. now rewrite H.
    + intros (pre & post & H). destruct pre as [|c' pre].
      * simpl in H.
        assert (String.prefix pat (String c s) = true) as Hq
            by (apply prefix_app; eauto).
        congruence.
      * simpl in H. injection H as _ H. exists pre, post. exact H.
Qed.

(** [s.find(pat) != npos] holds exactly when [pat] is a substring of [s]. *)
Lemma found_contains (s pat : string) :
  Std.found s pat = true <-> Std.contains s pat.
Proof.
  unfold Std.found, Std.find. rewrite <- (find_from_Some pat s 0).
  destruct (Std.find_from pat s 0); split; intros H; eauto;
    try discriminate; destruct H; discriminate.
Qed.

Lemma found_not_contains (s pat : string) :
  Std.found s pat = false <-> ~ Std.contains s pat.
Proof.
  rewrite <- found_contains. destruct (Std.found s pat); split; congruence.
Qed.

Lemma subscript_present {V : Type} (dflt v : V) (k : string) (m : gmap string V) :
  m !! k = Some v -> Std.subscript dflt k m = (v, m).
Proof. unfold Std.subscript. now intros ->. Qed.

Lemma subscript_absent {V : Type} (dflt : V) (k : string) (m : gmap string V) :
  m !! k = None -> Std.subscript dflt k m = (dflt, <[k := dflt]> m).
Proof. unfold Std.subscript. now intros ->. Qed.

Lemma eqb_decide (a b : string) : String.eqb a b = bool_decide (a = b).
Proof.
  destruct (String.eqb_spec a b) as [H|H].
  - now rewrite bool_decide_eq_true_2.
  - now rewrite bool_decide_eq_false_2.
Qed.

End StdFacts.

(** ** The connectivity policy simulator *)

Module ConnectivityFacts.

Import Connectivity.

Lemma matchesTrusted_elem (device : string) (trusted : list string) :
  matchesTrusted device trusted = bool_decide (device ∈ trusted).
Proof.
  induction trusted as [|t rest IH]; simpl.
  - reflexivity.
  - rewrite StdFacts.eqb_decide, IH.
    destruct (decide (device = t)) as [->|Hne].
    + rewrite !bool_decide_eq_true_2; [done | left | done].
    + rewrite (bool_decide_eq_false_2 _ Hne).
      apply bool_decide_ext. rewrite elem_of_cons. naive_solver.
Qed.

(** The two loops count the entries of [devices] that occur in [trusted]. *)
Lemma countTrusted_filter (devices trusted : list string) (c : Z) :
  countTrusted devices trusted c
  = (c + Z.of_nat (length (filter (λ d, d ∈ trusted) devices)))%Z.
Proof.
  revert c. induction devices as [|d rest IH]; intros c; simpl.
  - lia.
  - rewrite IH, matchesTrusted_elem, filter_cons.
    destruct (decide (d ∈ trusted)) as [Hd|Hd].
    + rewrite bool_decide_eq_true_2 by done. simpl. lia.
    + rewrite bool_decide_eq_false_2 by done. lia.
Qed.

Lemma construct_trusted (d : string) :
  d ∈ trustedDevices construct <-> d ∈ trustedDeviceSet.
Proof. unfold trustedDeviceSet. simpl. set_solver. Qed.

Lemma countTrusted_construct (devices : list string) :
  countTrusted devices (trustedDevices construct) 0 = trustedEntries devices.
Proof.
  rewrite countTrusted_filter. unfold trustedEntries.
  rewrite (list_filter_iff _ (λ d, d ∈ trustedDeviceSet)); [lia|].
  intros d. apply construct_trusted.
Qed.

(** The cascade of [evaluateTrustLevel] is the decision order of [tierFor]. *)
Lemma cascade_tierFor (location : string) (n : Z) :
  (if String.eqb location "Home" && (2 <=? n)%Z then "home_trusted"
   else if String.eqb location "Office" && (1 <=? n)%Z then "public_trusted"
   else if (1 <=? n)%Z then "public_trusted"
   else if String.eqb location "Rural Area" then "emergency"
   else "untrusted") = tierFor location n.
Proof.
  unfold tierFor.
  destruct (String.eqb_spec location "Home"),
           (String.eqb_spec location "Office"),
           (String.eqb_spec location "Rural Area"),
           (Z.leb_spec 2 n), (Z.leb_spec 1 n); simpl;
    repeat case_decide; try reflexivity; exfalso;
    try (subst; discriminate); naive_solver lia.
Qed.

Lemma evaluateTrustLevel_entries (devices : list string) (location : string) :
  evaluateTrustLevel construct devices location
  = tierFor location (trustedEntries devices).
Proof.
  unfold evaluateTrustLevel. rewrite countTrusted_construct.
  apply cascade_tierFor.
Qed.

(** On a list without repetition the entries counted are the intersection. *)
Lemma trustedEntries_NoDup (devices : list string) :
  NoDup devices -> trustedEntries devices = intersectionSize devices.
Proof.
  intros Hnd. unfold trustedEntries, intersectionSize. f_equal.
  rewrite <- (size_list_to_set (C := gset string)) by now apply NoDup_filter.
  f_equal. apply set_eq. intros d.
  rewrite elem_of_list_to_set, list_elem_of_filter, elem_of_intersection,
    elem_of_list_to_set.
  tauto.
Qed.

Lemma tierFor_names (location : string) (n : Z) :
  tierFor location n ∈ tierNames.
Proof. unfold tierFor, tierNames. repeat case_decide; set_solver. Qed.

Lemma evaluateTrustLevel_names (sim : Sim) (devices : list string)
      (location : string) :
  evaluateTrustLevel sim devices location ∈ tierNames.
Proof.
  unfold evaluateTrustLevel. rewrite cascade_tierFor. apply tierFor_names.
Qed.

(** What [initializePolicies] installs, whatever the table held before. *)
Lemma initializePolicies_lookup (sim0 : Sim) :
  policyRules (initializePolicies sim0) !! "home_trusted"
    = Some (mkPolicy "LOW" false 1000 "FULL_ACCESS")
  /\ policyRules (initializePolicies sim0) !! "public_trusted"
    = Some (mkPolicy "MEDIUM" true 500 "LIMITED_ACCESS")
  /\ policyRules (initializePolicies sim0) !! "untrusted"
    = Some (mkPolicy "HIGH" true 100 "RESTRICTED")
  /\ policyRules (initializePolicies sim0) !! "emergency"
    = Some (mkPolicy "CRITICAL" true 50 "EMERGENCY_ONLY").
Proof.
  unfold initializePolicies. simpl.
  repeat split; repeat (rewrite lookup_insert_ne by discriminate);
    apply lookup_insert_eq.
Qed.

Lemma construct_lookup :
  policyRules construct !! "home_trusted"
    = Some (mkPolicy "LOW" false 1000 "FULL_ACCESS")
  /\ policyRules construct !! "public_trusted"
    = Some (mkPolicy "MEDIUM" true 500 "LIMITED_ACCESS")
  /\ policyRules construct !! "untrusted"
    = Some (mkPolicy "HIGH" true 100 "RESTRICTED")
  /\ policyRules construct !! "emergency"
    = Some (mkPolicy "CRITICAL" true 50 "EMERGENCY_ONLY").
Proof. exact (initializePolicies_lookup (mkSim [] ∅)). Qed.

Lemma applyPolicy_present (tier location : string) (sim : Sim) (p : NetworkPolicy) :
  policyRules sim !! tier = Some p -> applyPolicy tier location sim = (p, sim).
Proof.
  intros H. unfold applyPolicy.
  rewrite (StdFacts.subscript_present _ _ _ _ H). now destruct sim.
Qed.

Lemma applyPolicy_absent (tier location : string) (sim : Sim) :
  policyRules sim !! tier = None ->
  applyPolicy tier location sim
  = (emptyPolicy,
     mkSim (trustedDevices sim) (<[tier := emptyPolicy]> (policyRules sim))).
Proof.
  intros H. unfold applyPolicy. now rewrite (StdFacts.subscript_absent _ _ _ H).
Qed.

(** *** Trust evaluation *)

(** C1, as stated, fails on a device list that names a trusted device twice:
    the intersection with the trusted-device set has one member, which at
    Home gives "public_trusted", while the code counts two and returns
    "home_trusted". *)
Lemma evaluateTrustLevel_repeated_device :
  intersectionSize ["home_wifi"; "home_wifi"] = 1%Z
  /\ tierFor "Home" (intersectionSize ["home_wifi"; "home_wifi"]) = "public_trusted"
  /\ evaluateTrustLevel construct ["home_wifi"; "home_wifi"] "Home" = "home_trusted".
Proof. repeat split; vm_compute; reflexivity. Qed.

(** C1, amended: for every device list and location, [evaluateTrustLevel]
    counts the entries of the list that belong to the trusted-device set
    {home_wifi, office_bt, car_system, personal_tablet}, an identifier listed
    twice counting twice, and returns the tier of the first matching rule:
    "home_trusted" at Home with a count of 2 or more, "public_trusted" at
    Office with a count of 1 or more, "public_trusted" anywhere with a count
    of 1 or more, "emergency" in a Rural Area, else "untrusted".  On a list
    without repetition the count is the intersection size.  The devices
    home_wifi and car_system at Home give "home_trusted". *)
Theorem evaluateTrustLevel_decision (devices : list string) (location : string) :
  evaluateTrustLevel construct devices location
    = tierFor location (trustedEntries devices)
  /\ (NoDup devices ->
      evaluateTrustLevel construct devices location
        = tierFor location (intersectionSize devices))
  /\ evaluateTrustLevel construct ["home_wifi"; "car_system"] "Home"
    = "home_trusted".
Proof.
  split; [apply evaluateTrustLevel_entries | split].
  - intros Hnd. rewrite <- trustedEntries_NoDup by exact Hnd.
    apply evaluateTrustLevel_entries.
  - reflexivity.
Qed.

Lemma evaluateTrustLevel_decision_witness :
  NoDup ["home_bt"; "office_bt"]
  /\ evaluateTrustLevel construct ["home_bt"; "office_bt"] "Office"
     = tierFor "Office" (intersectionSize ["home_bt"; "office_bt"]).
Proof.
  assert (NoDup ["home_bt"; "office_bt"]) as Hnd
    by (repeat constructor; set_solver).
  split; [exact Hnd |].
  exact (proj1 (proj2 (evaluateTrustLevel_decision
                         ["home_bt"; "office_bt"] "Office")) Hnd).
Defined.

(** *** Policy lookup *)

(** C3: for each of the four tier names [applyPolicy] returns the fields
    installed at initialisation (home_trusted: LOW, no PIN, 1000,
    FULL_ACCESS; public_trusted: MEDIUM, PIN, 500, LIMITED_ACCESS; untrusted:
    HIGH, PIN, 100, RESTRICTED; emergency: CRITICAL, PIN, 50,
    EMERGENCY_ONLY), and calling [applyPolicy] again with the same tier name
    returns the same fields. *)
Theorem applyPolicy_table :
  (forall location,
      fst (applyPolicy "home_trusted" location construct)
      = mkPolicy "LOW" false 1000 "FULL_ACCESS")
  /\ (forall location,
      fst (applyPolicy "public_trusted" location construct)
      = mkPolicy "MEDIUM" true 500 "LIMITED_ACCESS")
  /\ (forall location,
      fst (applyPolicy "untrusted" location construct)
      = mkPolicy "HIGH" true 100 "RESTRICTED")
  /\ (forall location,
      fst (applyPolicy "emergency" location construct)
      = mkPolicy "CRITICAL" true 50 "EMERGENCY_ONLY")
  /\ (forall tier location location' sim,
      fst (applyPolicy tier location' (snd (applyPolicy tier location sim)))
      = fst (applyPolicy tier location sim)).
Proof.
  destruct construct_lookup as (H1 & H2 & H3 & H4).
  split; [|split; [|split; [|split]]]; intros.
  - now rewrite (applyPolicy_present _ _ _ _ H1).
  - now rewrite (applyPolicy_present _ _ _ _ H2).
  - now rewrite (applyPolicy_present _ _ _ _ H3).
  - now rewrite (applyPolicy_present _ _ _ _ H4).
  - destruct (policyRules sim !! tier) as [p|] eqn:Hp.
    + rewrite (applyPolicy_present _ location _ _ Hp). simpl.
      now rewrite (applyPolicy_present _ location' _ _ Hp).
    + rewrite (applyPolicy_absent _ location _ Hp). simpl.
      erewrite applyPolicy_present; [reflexivity |].
      simpl. apply lookup_insert_eq.
Qed.

(** C9: whatever the devices and the location, [evaluateTrustLevel] returns
    one of the four tier names, and each of the four is returned for some
    input; each of the four is a key that [initializePolicies] installs; so
    the lookup in [applyPolicy] finds an entry for the tier returned, and
    leaves the table as it was. *)
Theorem evaluateTrustLevel_tier_installed
        (sim : Sim) (devices : list string) (location : string) :
  evaluateTrustLevel sim devices location ∈ tierNames
  /\ Forall (λ tier, exists devices' location',
                 evaluateTrustLevel construct devices' location' = tier)
            tierNames
  /\ Forall (λ tier, forall sim0,
                 is_Some (policyRules (initializePolicies sim0) !! tier))
            tierNames
  /\ exists policy,
      policyRules construct !! evaluateTrustLevel construct devices location
        = Some policy
      /\ applyPolicy (evaluateTrustLevel construct devices location)
                     location construct
        = (policy, construct).
Proof.
  split; [apply evaluateTrustLevel_names | split; [| split]].
  - unfold tierNames. repeat apply List.Forall_cons; try apply List.Forall_nil.
    + now exists ["home_wifi"; "car_system"], "Home".
    + now exists ["office_bt"], "Office".
    + now exists [], "Airport".
    + now exists [], "Rural Area".
  - unfold tierNames.
    repeat apply List.Forall_cons; try apply List.Forall_nil; intros sim0;
      destruct (initializePolicies_lookup sim0) as (H1 & H2 & H3 & H4); eauto.
  - pose proof (evaluateTrustLevel_names construct devices location) as Hin.
    destruct construct_lookup as (H1 & H2 & H3 & H4).
    unfold tierNames in Hin.
    rewrite !elem_of_cons, elem_of_nil in Hin.
    destruct Hin as [-> | [-> | [-> | [-> | []]]]]; eexists;
      (split; [eassumption | now apply applyPolicy_present]).
Qed.

(** *** Connectivity decisions *)

Lemma decide_network_network (policy : NetworkPolicy) (n : string) :
  network (decide_network policy n) = n.
Proof.
  unfold decide_network.
  repeat match goal with |- context [if ?b then _ else _] => destruct b end;
    reflexivity.
Qed.

(** C2: the decisions follow the security level alone.  At LOW every network
    is FULL; at MEDIUM the networks whose name contains "Secure" or "Office"
    are LIMITED and the rest AVOID; at HIGH "Cellular_Data" is RESTRICTED and
    the rest BLOCKED; at CRITICAL "Cellular_Data" is EMERGENCY and the rest
    BLOCKED. *)
Theorem makeConnectivityDecisions_by_level
        (networks : list string) (pinFlag : bool) (cap : Z) (class : string) :
  Forall2 (λ n d, network d = n /\ access d = FULL)
          networks
          (makeConnectivityDecisions networks (mkPolicy "LOW" pinFlag cap class))
  /\ Forall2 (λ n d, network d = n
                     /\ (access d = LIMITED <->
                         Std.contains n "Secure" \/ Std.contains n "Office")
                     /\ (access d = AVOID <->
                         ~ (Std.contains n "Secure" \/ Std.contains n "Office")))
          networks
          (makeConnectivityDecisions networks (mkPolicy "MEDIUM" pinFlag cap class))
  /\ Forall2 (λ n d, network d = n
                     /\ (access d = RESTRICTED <-> n = "Cellular_Data")
                     /\ (access d = BLOCKED <-> n <> "Cellular_Data"))
          networks
          (makeConnectivityDecisions networks (mkPolicy "HIGH" pinFlag cap class))
  /\ Forall2 (λ n d, network d = n
                     /\ (access d = EMERGENCY <-> n = "Cellular_Data")
                     /\ (access d = BLOCKED <-> n <> "Cellular_Data"))
          networks
          (makeConnectivityDecisions networks (mkPolicy "CRITICAL" pinFlag cap class)).
Proof.
  split; [|split; [|split]];
    (induction networks as [|n rest IH]; simpl;
     [apply List.Forall2_nil | apply List.Forall2_cons; [clear IH | exact IH]]);
    (split; [apply decide_network_network |]);
    unfold decide_network; simpl.
  - reflexivity.
  - rewrite <- !StdFacts.found_contains.
    destruct (Std.found n "Secure"), (Std.found n "Office"); simpl;
      naive_solver.
  - destruct (String.eqb_spec n "Cellular_Data"); simpl; naive_solver.
  - destruct (String.eqb_spec n "Cellular_Data"); simpl; naive_solver.
Qed.

End ConnectivityFacts.

(** ** The biometric security simulator *)

Module BiometricFacts.

Import Biometric.

Lemma nearbyHas_elem (trustedDevice : string) (nearby : list string) :
  nearbyHas trustedDevice nearby = bool_decide (trustedDevice ∈ nearby).
Proof.
  induction nearby as [|d rest IH]; simpl.
  - reflexivity.
  - rewrite StdFacts.eqb_decide, IH.
    destruct (decide (trustedDevice = d)) as [->|Hne].
    + rewrite !bool_decide_eq_true_2; [done | left | done].
    + rewrite (bool_decide_eq_false_2 _ Hne).
      apply bool_decide_ext. rewrite elem_of_cons. naive_solver.
Qed.

(** The two loops of [isTrustedEnvironment] look for a device common to both
    lists. *)
Lemma anyNearby_common (trusted nearby : list string) :
  anyNearby trusted nearby = true
  <-> exists d, d ∈ trusted /\ d ∈ nearby.
Proof.
  induction trusted as [|t rest IH]; simpl.
  - split; [discriminate | intros (d & Hd & _); now apply elem_of_nil in Hd].
  - rewrite nearbyHas_elem. case_bool_decide as Ht.
    + split; [intros _; exists t; split; [left | exact Ht] | reflexivity].
    + rewrite IH. split.
      * intros (d & Hd & Hn). exists d. split; [now right | exact Hn].
      * intros (d & Hd & Hn). apply elem_of_cons in Hd as [-> | Hd];
          [contradiction | eauto].
Qed.

Lemma absent_None {V : Type} (k : string) (m : gmap string V) :
  m !! k = None -> Std.absent k m = true.
Proof. unfold Std.absent. now intros ->. Qed.

Lemma absent_Some {V : Type} (k : string) (m : gmap string V) (v : V) :
  m !! k = Some v -> Std.absent k m = false.
Proof. unfold Std.absent. now intros ->. Qed.

Lemma authenticateUser_absent (userId : string) (sim : Sim) (w : World) :
  userDatabase sim !! userId = None ->
  authenticateUser userId sim w = (sim, printed (NotFound userId) w).
Proof.
  intros H. unfold authenticateUser. now rewrite (absent_None _ _ H).
Qed.

Lemma authenticateUser_present (userId : string) (sim : Sim) (w : World)
      (profile : UserProfile) :
  userDatabase sim !! userId = Some profile ->
  authenticateUser userId sim w
  = let '(voiceAuth, w1) := authenticateVoice (voicePrintHash profile) w in
    let '(pinVerified, w2) := verifyPIN (pin profile) w1 in
    (sim,
     printed (lineOf userId
                (outcomePolicy voiceAuth (isTrustedEnvironment sim profile)
                               pinVerified))
             (if voiceAuth then w1 else w2)).
Proof.
  intros H. unfold authenticateUser.
  rewrite (absent_Some _ _ _ H), (StdFacts.subscript_present _ _ _ _ H).
  destruct sim as [db nearby].
  unfold authenticateVoice, verifyPIN, called, draw, print, printed,
    outcomePolicy, mbind, io_bind, mret, io_ret.
  simpl.
  destruct (Float32.gt (draws w (drawn w)) (Float32.lit 3 10)),
    (isTrustedEnvironment {| userDatabase := db; nearbyDevices := nearby |} profile);
    reflexivity.
Qed.

(** The simulator comes back from [authenticateUser] as it went in. *)
Lemma authenticateUser_keeps (userId : string) (sim : Sim) (w : World) :
  fst (authenticateUser userId sim w) = sim.
Proof.
  destruct (userDatabase sim !! userId) as [profile|] eqn:H.
  - rewrite (authenticateUser_present _ _ _ _ H).
    destruct (authenticateVoice _ w) as [voiceAuth w1].
    now destruct (verifyPIN _ w1) as [pinVerified w2].
  - now rewrite (authenticateUser_absent _ _ _ H).
Qed.

(** [testUserAuthentication] ends with the not-found line of the unknown
    user, after the three attempts of the known users. *)
Lemma testUserAuthentication_last (w : World) :
  exists w3,
    testUserAuthentication construct w
    = (scanNearbyDevices construct, printed (NotFound "unknown_user") w3).
Proof.
  unfold testUserAuthentication, mbind, io_bind.
  set (sim := scanNearbyDevices construct).
  pose proof (authenticateUser_keeps "thabo" sim w) as H1.
  destruct (authenticateUser "thabo" sim w) as [s1 w1].
  simpl in H1. subst s1.
  pose proof (authenticateUser_keeps "matseliso" sim w1) as H2.
  destruct (authenticateUser "matseliso" sim w1) as [s2 w2].
  simpl in H2. subst s2.
  pose proof (authenticateUser_keeps "ntate_john" sim w2) as H3.
  destruct (authenticateUser "ntate_john" sim w2) as [s3 w3].
  simpl in H3. subst s3.
  exists w3. apply authenticateUser_absent. reflexivity.
Qed.

(** *** Authentication *)

(** C4: for a user whose profile exists, with [voiceAuth] the result of the
    voice check and [trustedEnvironment] true exactly when a trusted device
    of the profile is among the nearby devices, [authenticateUser] reports:
    success by "Voice" with the trusted-environment note when both hold;
    else success by "Voice" when [voiceAuth] holds; else the result of the
    PIN check, by "PIN".  One line is printed for the attempt and it names
    one method: "Voice" exactly when [voiceAuth] holds, "PIN" exactly when it
    does not. *)
Theorem authenticateUser_outcome
        (userId : string) (sim : Sim) (w : World) (profile : UserProfile) :
  userDatabase sim !! userId = Some profile ->
  let '(voiceAuth, w1) := authenticateVoice (voicePrintHash profile) w in
  let '(pinVerified, w2) := verifyPIN (pin profile) w1 in
  let trustedEnvironment := isTrustedEnvironment sim profile in
  let line :=
    if voiceAuth && trustedEnvironment then
      Report userId true "Voice" " (Trusted Environment)"
    else if voiceAuth then Report userId true "Voice" ""
    else Report userId pinVerified "PIN" "" in
  (trustedEnvironment = true
   <-> exists d, d ∈ trustedDevices profile /\ d ∈ nearbyDevices sim)
  /\ authenticateUser userId sim w
     = (sim, printed line (if voiceAuth then w1 else w2))
  /\ out (snd (authenticateUser userId sim w)) = out w ++ [line]
  /\ (methodOf line = Some "Voice" <-> voiceAuth = true)
  /\ (methodOf line = Some "PIN" <-> voiceAuth = false).
Proof.
  intros H. pose proof (authenticateUser_present userId sim w profile H) as Hrun.
  destruct (authenticateVoice (voicePrintHash profile) w) as [voiceAuth w1] eqn:Hv.
  destruct (verifyPIN (pin profile) w1) as [pinVerified w2] eqn:Hp.
  assert (out w1 = out w /\ out w2 = out w) as [Ho1 Ho2].
  { unfold authenticateVoice, verifyPIN, called, draw, mbind, io_bind,
      mret, io_ret in Hv, Hp.
    simpl in Hv, Hp. injection Hv as _ <-. injection Hp as _ <-. now split. }
  split; [apply anyNearby_common |].
  assert (lineOf userId
            (outcomePolicy voiceAuth (isTrustedEnvironment sim profile) pinVerified)
          = (if voiceAuth && isTrustedEnvironment sim profile
             then Report userId true "Voice" " (Trusted Environment)"
             else if voiceAuth then Report userId true "Voice" ""
                  else Report userId pinVerified "PIN" "")) as Hline.
  { unfold outcomePolicy.
    now destruct voiceAuth, (isTrustedEnvironment sim profile). }
  rewrite Hline in Hrun. rewrite Hrun. simpl.
  split; [reflexivity |]. split.
  - destruct voiceAuth; simpl; congruence.
  - destruct voiceAuth, (isTrustedEnvironment sim profile); simpl;
      split; split; intros; congruence.
Qed.

Lemma authenticateUser_outcome_witness :
  userDatabase (scanNearbyDevices construct) !! "thabo"
  = Some (mkProfile "voice_hash_1234" "5678" ["home_bt"; "car_bt"])
  /\ out (snd (authenticateUser "thabo" (scanNearbyDevices construct)
                 (mkWorld (fun _ => Float32.lit 1 2) 0 [] [])))
     = [Report "thabo" true "Voice" " (Trusted Environment)"].
Proof.
  assert (userDatabase (scanNearbyDevices construct) !! "thabo"
          = Some (mkProfile "voice_hash_1234" "5678" ["home_bt"; "car_bt"]))
    as H by (vm_compute; reflexivity).
  split; [exact H |].
  exact (proj1 (proj2 (proj2
           (authenticateUser_outcome
              "thabo" (scanNearbyDevices construct)
              (mkWorld (fun _ => Float32.lit 1 2) 0 [] []) _ H)))).
Defined.

(** C5: for a user identifier absent from the profile table,
    [authenticateUser] prints the not-found line and nothing else, runs
    neither the voice check nor the PIN check (no call recorded, no draw
    taken), leaves the simulator as it was, and returns, so that whatever
    follows the call runs next. *)
Theorem authenticateUser_not_found (userId : string) (sim : Sim) (w : World) :
  userDatabase sim !! userId = None ->
  authenticateUser userId sim w
  = (sim, mkWorld (draws w) (drawn w) (calls w) (out w ++ [NotFound userId]))
  /\ forall (A : Type) (next : Sim -> IO A),
      (authenticateUser userId sim ≫= next) w
      = next sim (mkWorld (draws w) (drawn w) (calls w)
                          (out w ++ [NotFound userId])).
Proof.
  intros H. split.
  - now rewrite (authenticateUser_absent _ _ _ H).
  - intros A next. unfold mbind, io_bind.
    now rewrite (authenticateUser_absent _ _ _ H).
Qed.

Lemma authenticateUser_not_found_witness :
  userDatabase construct !! "unknown_user" = None
  /\ authenticateUser "unknown_user" construct
       (mkWorld (fun _ => Float32.lit 1 2) 0 [] [])
     = (construct,
        mkWorld (fun _ => Float32.lit 1 2) 0 [] [NotFound "unknown_user"]).
Proof.
  assert (userDatabase construct !! "unknown_user" = None) as H
      by (vm_compute; reflexivity).
  split; [exact H |].
  exact (proj1 (authenticateUser_not_found
                  "unknown_user" construct
                  (mkWorld (fun _ => Float32.lit 1 2) 0 [] []) H)).
Defined.

End BiometricFacts.

(** ** Binary32 arithmetic *)

Module Float32Facts.

Import Float32.

Local Open Scope Z_scope.

(** *** The literals

    The binary32 numbers nearest to 0.1, 0.2, 0.3 and 0.85, with the bit
    patterns 0x3DCCCCCD, 0x3E4CCCCD, 0x3E99999A and 0x3F59999A. *)
Lemma literals :
  lit 1 10 = S754_finite false 13421773 (-27)
  /\ lit 2 10 = S754_finite false 13421773 (-26)
  /\ lit 3 10 = S754_finite false 10066330 (-25)
  /\ lit 85 100 = S754_finite false 14260634 (-24).
Proof. repeat split; vm_compute; reflexivity. Qed.

(** *** Signs survive rounding *)

Lemma iter_pos_invariant {A : Type} (f : A -> A) (P : A -> Prop) :
  (forall x, P x -> P (f x)) -> forall p x, P x -> P (SpecFloat.iter_pos f p x).
Proof.
  intros Hf. induction p as [p IH|p IH|]; intros x Hx; simpl; auto.
Qed.

Lemma shr_1_div2 (mrs : shr_record) :
  0 <= shr_m mrs -> shr_m (shr_1 mrs) = shr_m mrs / 2.
Proof.
  destruct mrs as [[|[p|p|]|p] r s]; cbn [shr_1 shr_m]; intros H.
  - reflexivity.
  - rewrite Pos2Z.inj_xI. apply Z.div_unique with (r := 1); lia.
  - rewrite Pos2Z.inj_xO. apply Z.div_unique with (r := 0); lia.
  - reflexivity.
  - lia.
Qed.

Lemma shr_1_nonneg (mrs : shr_record) :
  0 <= shr_m mrs -> 0 <= shr_m (shr_1 mrs).
Proof. intros H. rewrite shr_1_div2 by exact H. apply Z.div_pos; lia. Qed.

Lemma iter_shr_1_div (p : positive) (mrs : shr_record) :
  0 <= shr_m mrs -> shr_m (SpecFloat.iter_pos shr_1 p mrs) = shr_m mrs / 2 ^ Z.pos p.
Proof.
  revert mrs. induction p as [p IH|p IH|]; intros mrs H; simpl SpecFloat.iter_pos.
  - assert (0 <= shr_m (shr_1 mrs)) as H1 by now apply shr_1_nonneg.
    assert (0 <= shr_m (SpecFloat.iter_pos shr_1 p (shr_1 mrs))) as H2
        by (apply (iter_pos_invariant shr_1 (λ x, 0 <= shr_m x));
            [apply shr_1_nonneg | exact H1]).
    rewrite (IH _ H2), (IH _ H1), shr_1_div2 by exact H.
    replace (Z.pos p~1) with (1 + Z.pos p + Z.pos p) by lia.
    rewrite !Z.pow_add_r by lia.
    rewrite !Z.div_div by (try apply Z.pow_pos_nonneg; lia).
    rewrite Z.pow_1_r. f_equal. ring.
  - assert (0 <= shr_m (SpecFloat.iter_pos shr_1 p mrs)) as H2
        by (apply (iter_pos_invariant shr_1 (λ x, 0 <= shr_m x));
            [apply shr_1_nonneg | exact H]).
    rewrite (IH _ H2), (IH _ H).
    replace (Z.pos p~0) with (Z.pos p + Z.pos p) by lia.
    rewrite !Z.pow_add_r by lia.
    rewrite !Z.div_div by (try apply Z.pow_pos_nonneg; lia).
    f_equal.
  - rewrite shr_1_div2 by exact H. now rewrite Z.pow_1_r.
Qed.

Lemma shr_record_of_loc_m (m : Z) (l : location) :
  shr_m (shr_record_of_loc m l) = m.
Proof. now destruct l as [|[ | | ]]. Qed.

(** [shr_fexp] divides the mantissa by a power of two and raises the exponent
    by as much. *)
Lemma shr_fexp_div (m e : Z) (l : location) :
  0 <= m ->
  let n := Z.max 0 (fexp prec emax (Zdigits2 m + e) - e) in
  shr_m (fst (shr_fexp prec emax m e l)) = m / 2 ^ n
  /\ snd (shr_fexp prec emax m e l) = e + n.
Proof.
  intros Hm n. unfold shr_fexp, shr. subst n.
  destruct (fexp prec emax (Zdigits2 m + e) - e) as [|p|p]; simpl fst; simpl snd.
  - rewrite shr_record_of_loc_m, Z.max_l, Z.pow_0_r, Z.div_1_r by lia. lia.
  - rewrite iter_shr_1_div by (rewrite shr_record_of_loc_m; exact Hm).
    rewrite shr_record_of_loc_m, Z.max_r by lia. lia.
  - rewrite shr_record_of_loc_m, Z.max_l, Z.pow_0_r, Z.div_1_r by lia. lia.
Qed.

Lemma round_nearest_even_bounds (m : Z) (l : location) :
  m <= round_nearest_even m l <= m + 1.
Proof.
  destruct l as [|[ | | ]]; simpl; try lia. destruct (Z.even m); lia.
Qed.

(** The result of rounding a mantissa that is not below zero, given by the two
    shifts that [binary_round_aux] makes. *)
Lemma binary_round_aux_shifts (mx ex : Z) (lx : location) :
  0 <= mx ->
  exists m1 e1 m2 m3 e3,
    e1 = ex + Z.max 0 (fexp prec emax (Zdigits2 mx + ex) - ex)
    /\ m1 = mx / 2 ^ (e1 - ex)
    /\ m1 <= m2 <= m1 + 1
    /\ e3 = e1 + Z.max 0 (fexp prec emax (Zdigits2 m2 + e1) - e1)
    /\ m3 = m2 / 2 ^ (e3 - e1)
    /\ 0 <= m3
    /\ binary_round_aux prec emax false mx ex lx
       = match m3 with
         | Z0 => S754_zero false
         | Zpos m => if e3 <=? emax - prec then S754_finite false m e3
                     else S754_infinity false
         | Zneg _ => S754_nan
         end.
Proof.
  intros Hmx. unfold binary_round_aux.
  destruct (shr_fexp_div mx ex lx Hmx) as [Hm1 He1].
  destruct (shr_fexp prec emax mx ex lx) as [mrs1 e1]. simpl in Hm1, He1.
  pose proof (round_nearest_even_bounds (shr_m mrs1) (loc_of_shr_record mrs1))
    as Hm2.
  set (m2 := round_nearest_even (shr_m mrs1) (loc_of_shr_record mrs1)) in *.
  assert (0 <= shr_m mrs1) as H1
      by (rewrite Hm1; apply Z.div_pos; [lia | apply Z.pow_pos_nonneg; lia]).
  assert (0 <= m2) as H2 by lia.
  destruct (shr_fexp_div m2 e1 loc_Exact H2) as [Hm3 He3].
  destruct (shr_fexp prec emax m2 e1 loc_Exact) as [mrs3 e3]. simpl in Hm3, He3.
  exists (shr_m mrs1), e1, m2, (shr_m mrs3), e3.
  repeat split; try lia.
  - rewrite Hm1. f_equal. f_equal. lia.
  - rewrite Hm3. f_equal. f_equal. lia.
  - rewrite Hm3. apply Z.div_pos; [lia | apply Z.pow_pos_nonneg; lia].
Qed.

Lemma binary_round_aux_nonneg (mx ex : Z) (lx : location) :
  0 <= mx -> nonneg (binary_round_aux prec emax false mx ex lx) = true.
Proof.
  intros Hmx.
  destruct (binary_round_aux_shifts mx ex lx Hmx)
    as (m1 & e1 & m2 & m3 & e3 & _ & _ & _ & _ & _ & Hm3 & ->).
  destruct m3 as [|m|m]; [reflexivity | | lia].
  now destruct (e3 <=? emax - prec).
Qed.


Lemma binary_round_nonneg (m : positive) (e : Z) :
  nonneg (binary_round prec emax false m e) = true.
Proof.
  unfold binary_round.
  destruct (shl_align m e (fexp prec emax (Z.pos (digits2_pos m) + e))) as [mz ez].
  apply binary_round_aux_nonneg. lia.
Qed.

Lemma add_nonneg (x y : spec_float) :
  nonneg x = true -> nonneg y = true -> nonneg (add x y) = true.
Proof.
  destruct x as [sx|sx| |sx mx ex], y as [sy|sy| |sy my ey];
    cbn [nonneg]; intros Hx Hy; try discriminate;
    apply negb_true_iff in Hx, Hy; subst; try reflexivity.
  unfold add, SFadd, cond_Zopp, binary_normalize.
  rewrite <- Pos2Z.inj_add. apply binary_round_nonneg.
Qed.

(** A square is never below zero. *)
Lemma mul_self_nonneg (x : spec_float) :
  x <> S754_nan -> nonneg (mul x x) = true.
Proof.
  destruct x as [s|s| |s m e]; intros Hx; try congruence;
    unfold mul, SFmul; rewrite xorb_nilpotent; try reflexivity.
  apply binary_round_aux_nonneg. lia.
Qed.

Lemma abs_nonneg (x : spec_float) : nonneg x = true -> SFabs x = x.
Proof.
  destruct x as [s|s| |s m e]; cbn [nonneg]; intros H; try discriminate;
    apply negb_true_iff in H; now subst.
Qed.

Lemma div_nonneg (x y : spec_float) :
  nonneg x = true -> finite_positive y = true -> nonneg (div x y) = true.
Proof.
  destruct y as [sy|sy| |sy my ey]; cbn [finite_positive]; try discriminate.
  intros Hx Hy. apply negb_true_iff in Hy. subst sy.
  destruct x as [sx|sx| |sx mx ex]; cbn [nonneg] in Hx; try discriminate;
    apply negb_true_iff in Hx; subst sx; try reflexivity.
  unfold div, SFdiv, SFdiv_core_binary. cbn [xorb].
  match goal with |- context [Z.div_eucl ?a ?b] =>
    assert (0 <= a) as Ha;
    [| pose proof (Z_div_mod a b ltac:(lia)) as Hdiv;
       destruct (Z.div_eucl a b) as [q r] ]
  end.
  - match goal with |- context [match ?s with Z0 => _ | Zpos _ => _ | Zneg _ => _ end] =>
      destruct s end; try lia.
    apply Z.shiftl_nonneg. lia.
  - apply binary_round_aux_nonneg. nia.
Qed.

(** *** Conversion of a count *)

Lemma digits2_pos_bounds (p : positive) :
  2 ^ (Z.pos (digits2_pos p) - 1) <= Z.pos p < 2 ^ Z.pos (digits2_pos p).
Proof.
  induction p as [p IH|p IH|]; cbn [digits2_pos].
  - rewrite Pos2Z.inj_succ.
    replace (Z.pos p~1) with (2 * Z.pos p + 1) by lia.
    replace (Z.succ (Z.pos (digits2_pos p)) - 1)
      with (Z.succ (Z.pos (digits2_pos p) - 1)) by lia.
    rewrite (Z.pow_succ_r 2 (Z.pos (digits2_pos p) - 1)) by lia.
    rewrite (Z.pow_succ_r 2 (Z.pos (digits2_pos p))) by lia. lia.
  - rewrite Pos2Z.inj_succ.
    replace (Z.pos p~0) with (2 * Z.pos p) by lia.
    replace (Z.succ (Z.pos (digits2_pos p)) - 1)
      with (Z.succ (Z.pos (digits2_pos p) - 1)) by lia.
    rewrite (Z.pow_succ_r 2 (Z.pos (digits2_pos p) - 1)) by lia.
    rewrite (Z.pow_succ_r 2 (Z.pos (digits2_pos p))) by lia. lia.
  - simpl. lia.
Qed.

Lemma Zdigits2_bounds (m : Z) :
  0 < m -> 1 <= Zdigits2 m /\ 2 ^ (Zdigits2 m - 1) <= m < 2 ^ Zdigits2 m.
Proof.
  destruct m as [|p|p]; try lia. intros _. cbn [Zdigits2].
  split; [lia | apply digits2_pos_bounds].
Qed.

Lemma digits2_pos_shift (m k : positive) :
  Z.pos (digits2_pos (Pos.iter xO m k)) = Z.pos (digits2_pos m) + Z.pos k.
Proof.
  induction k as [|k IH] using Pos.peano_ind.
  - cbn [Pos.iter digits2_pos]. lia.
  - rewrite Pos.iter_succ. cbn [digits2_pos]. lia.
Qed.

(** Aligning keeps the sum of digit count and exponent. *)
Lemma shl_align_digits (mx : positive) (ex ex' : Z) :
  snd (shl_align mx ex ex') = Z.min ex ex'
  /\ Z.pos (digits2_pos (fst (shl_align mx ex ex'))) + snd (shl_align mx ex ex')
     = Z.pos (digits2_pos mx) + ex.
Proof.
  unfold shl_align. destruct (ex' - ex) as [|k|k] eqn:Hk; cbn [fst snd].
  - lia.
  - lia.
  - rewrite digits2_pos_shift. lia.
Qed.

Lemma div_pow2_bounds (m d k : Z) :
  0 <= k <= d - 1 -> 2 ^ (d - 1) <= m < 2 ^ d ->
  2 ^ (d - 1 - k) <= m / 2 ^ k < 2 ^ (d - k).
Proof.
  intros Hk [Hlo Hhi].
  assert (0 < 2 ^ k) as Hpos by (apply Z.pow_pos_nonneg; lia).
  split.
  - apply Z.div_le_lower_bound; [exact Hpos |].
    rewrite <- Z.pow_add_r by lia. now replace (k + (d - 1 - k)) with (d - 1) by lia.
  - apply Z.div_lt_upper_bound; [exact Hpos |].
    rewrite <- Z.pow_add_r by lia. now replace (k + (d - k)) with d by lia.
Qed.

Lemma pow2_lt_inv (a b : Z) : 0 <= b -> 2 ^ a < 2 ^ b -> a < b.
Proof. intros Hb H. apply (Z.pow_lt_mono_r_iff 2); lia. Qed.

(** A whole number above zero converts to a float above zero, and to a finite
    one when it has at most 127 binary digits. *)
Lemma binary_round_whole (p : positive) :
  positive_value (binary_round prec emax false p 0) = true
  /\ (Z.pos (digits2_pos p) <= 127 ->
      finite_positive (binary_round prec emax false p 0) = true).
Proof.
  unfold binary_round.
  pose proof (shl_align_digits p 0 (fexp prec emax (Z.pos (digits2_pos p) + 0)))
    as [Hez Hdz].
  destruct (shl_align p 0 (fexp prec emax (Z.pos (digits2_pos p) + 0)))
    as [mz ez].
  cbn [fst snd] in Hez, Hdz.
  set (d := Z.pos (digits2_pos p)) in *.
  set (dz := Z.pos (digits2_pos mz)) in *.
  assert (1 <= d) as Hd by (subst d; lia).
  assert (fexp prec emax (d + 0) = d - 24) as Hf
      by (unfold fexp, SpecFloat.emin, prec, emax; lia).
  rewrite Hf in Hez.
  pose proof (digits2_pos_bounds mz) as Hmz. fold dz in Hmz.
  destruct (binary_round_aux_shifts (Z.pos mz) ez loc_Exact ltac:(lia))
    as (m1 & e1 & m2 & m3 & e3 & He1 & Hm1 & Hm2 & He3 & Hm3 & _ & ->).
  cbn [Zdigits2] in He1. fold dz in He1.
  assert (e1 = d - 24) as He1'
      by (rewrite He1; unfold fexp, SpecFloat.emin, prec, emax; lia).
  assert (2 ^ 23 <= m1 < 2 ^ 24) as Hb1.
  { pose proof (div_pow2_bounds (Z.pos mz) dz (e1 - ez) ltac:(lia) Hmz) as Hb.
    replace (dz - 1 - (e1 - ez)) with 23 in Hb by lia.
    replace (dz - (e1 - ez)) with 24 in Hb by lia.
    now rewrite Hm1. }
  assert (2 ^ 23 <= m2 <= 2 ^ 24) as Hb2 by lia.
  destruct (Zdigits2_bounds m2 ltac:(lia)) as [Hd2 Hm2b].
  set (d2 := Zdigits2 m2) in *.
  assert (24 <= d2 <= 25) as Hd2'.
  { split.
    - cut (23 < d2); [lia |]. apply pow2_lt_inv; lia.
    - cut (d2 - 1 < 25); [lia |]. apply pow2_lt_inv; [lia |].
      change (2 ^ 25) with (2 * 2 ^ 24). lia. }
  assert (e3 = e1 + (d2 - 24)) as He3'
      by (rewrite He3; unfold fexp, SpecFloat.emin, prec, emax; lia).
  assert (2 ^ 23 <= m3) as Hb3.
  { pose proof (div_pow2_bounds m2 d2 (e3 - e1) ltac:(lia) Hm2b) as Hb.
    replace (d2 - 1 - (e3 - e1)) with 23 in Hb by lia.
    rewrite Hm3. apply Hb. }
  destruct m3 as [|q|q]; try lia.
  split.
  - now destruct (e3 <=? emax - prec).
  - intros Hsmall.
    replace (e3 <=? emax - prec) with true; [reflexivity |].
    symmetry. apply Z.leb_le. unfold emax, prec. lia.
Qed.

Lemma of_size_positive (n : nat) :
  (1 <= n)%nat -> positive_value (of_size n) = true.
Proof.
  intros Hn. unfold of_size, of_Z, binary_normalize.
  destruct (Z.of_nat n) as [|p|p] eqn:Hp; try lia.
  apply binary_round_whole.
Qed.

(** Every [size_t] above zero converts to a finite float above zero. *)
Lemma of_size_finite (n : nat) :
  (1 <= n)%nat -> Z.of_nat n < 2 ^ 64 ->
  finite_positive (of_size n) = true.
Proof.
  intros Hn Hlt. unfold of_size, of_Z, binary_normalize.
  destruct (Z.of_nat n) as [|p|p] eqn:Hp; try lia.
  apply binary_round_whole.
  pose proof (digits2_pos_bounds p) as [Hlo _].
  cut (Z.pos (digits2_pos p) - 1 < 64); [lia |].
  apply pow2_lt_inv; lia.
Qed.

Lemma div_zero_positive (y : spec_float) :
  positive_value y = true -> div zero y = zero.
Proof.
  destruct y as [s|s| |s m e]; cbn [positive_value]; intros H;
    try discriminate; apply negb_true_iff in H; now subst.
Qed.

Lemma positive_value_not_nan (x : spec_float) :
  positive_value x = true -> x <> S754_nan.
Proof. now destruct x. Qed.

End Float32Facts.

(** ** The voice recognition simulator *)

Module VoiceFacts.

Import Voice.

(** *** Keyword matching *)

Lemma scanModels_found (models : list (list spec_float)) (features : list spec_float) :
  match scanModels models features with
  | (true, n) =>
      exists pre model post,
        models = pre ++ model :: post
        /\ Forall (λ m, ~ exceeds features m) pre
        /\ exceeds features model
        /\ n = S (length pre)
  | (false, n) =>
      Forall (λ m, ~ exceeds features m) models /\ n = length models
  end.
Proof.
  induction models as [|model rest IH]; simpl.
  - split; [apply List.Forall_nil | reflexivity].
  - destruct (Float32.gt (computeSimilarity features model) RESPONSE_THRESHOLD)
      eqn:Hgt.
    + exists [], model, rest. repeat split; [apply List.Forall_nil | exact Hgt].
    + assert (~ exceeds features model) as Hno
          by (unfold exceeds; rewrite Hgt; discriminate).
      destruct (scanModels rest features) as [[|] n].
      * destruct IH as (pre & m & post & -> & Hpre & Hm & ->).
        exists (model :: pre), m, post.
        repeat split; [now apply List.Forall_cons | exact Hm].
      * destruct IH as [Hall ->]. split; [now apply List.Forall_cons | reflexivity].
Qed.

(** C6: [matchKeywords] returns true exactly when the similarity of some
    keyword model to the features is strictly above the threshold, the
    binary32 number nearest 0.85.  The loop stops at the first such model,
    no later model being compared; when there is none every model is
    compared and the result is false. *)
Theorem matchKeywords_threshold (sim : Sim) (features : list spec_float) :
  (matchKeywords sim features = true
   <-> exists model, model ∈ keywordModels sim /\ exceeds features model)
  /\ (matchKeywords sim features = false
      <-> Forall (λ model, ~ exceeds features model) (keywordModels sim))
  /\ match scanModels (keywordModels sim) features with
     | (true, n) =>
         exists pre model post,
           keywordModels sim = pre ++ model :: post
           /\ Forall (λ m, ~ exceeds features m) pre
           /\ exceeds features model
           /\ n = S (length pre)
     | (false, n) => n = length (keywordModels sim)
     end
  /\ RESPONSE_THRESHOLD = S754_finite false 14260634 (-24)
  /\ Float32.gt RESPONSE_THRESHOLD RESPONSE_THRESHOLD = false.
Proof.
  unfold matchKeywords.
  pose proof (scanModels_found (keywordModels sim) features) as H.
  destruct (scanModels (keywordModels sim) features) as [[|] n]; simpl.
  - destruct H as (pre & model & post & Hk & Hpre & Hm & Hn).
    split; [| split; [| split; [| split]]].
    + split; [intros _ | reflexivity].
      exists model. split; [| exact Hm].
      rewrite Hk. apply elem_of_app. right. left.
    + split; [discriminate |]. intros Hall. exfalso.
      rewrite Hk in Hall. apply Forall_app in Hall as [_ Hall].
      apply Forall_cons in Hall as [Hno _]. contradiction.
    + exists pre, model, post. auto.
    + reflexivity.
    + reflexivity.
  - destruct H as [Hall Hn].
    split; [| split; [| split; [| split]]].
    + split; [discriminate |]. intros (model & Hin & Hm). exfalso.
      rewrite Forall_forall in Hall. exact (Hall model Hin Hm).
    + split; [intros _; exact Hall | reflexivity].
    + exact Hn.
    + reflexivity.
    + reflexivity.
Qed.

(** *** The similarity *)

Lemma fold_seq_succ {A : Type} (g : A -> nat -> A) (n k : nat) (acc : A) :
  fold_left g (seq (S k) n) acc = fold_left (λ s i, g s (S i)) (seq k n) acc.
Proof.
  revert k acc. induction n as [|n IH]; intros k acc; simpl.
  - reflexivity.
  - apply IH.
Qed.

(** The indexed loop adds up the products of the paired entries. *)
Lemma loop_combine (a b : list spec_float) (acc : spec_float) :
  fold_left
    (λ similarity i,
       Float32.add similarity (Float32.mul (at_index a i) (at_index b i)))
    (seq 0 (divisor a b)) acc
  = fold_left (λ acc p, Float32.add acc (Float32.mul (fst p) (snd p)))
              (combine a b) acc.
Proof.
  revert b acc. induction a as [|x a IH]; intros [|y b] acc; try reflexivity.
  unfold divisor. simpl. rewrite fold_seq_succ. apply IH.
Qed.

Lemma computeSimilarity_dot (a b : list spec_float) :
  computeSimilarity a b
  = Float32.div (SFabs (dot a b))
                (Float32.of_size (Nat.min (length a) (length b))).
Proof. unfold computeSimilarity, dot. now rewrite loop_combine. Qed.

Lemma dot_self (a : list spec_float) (acc : spec_float) :
  fold_left (λ acc p, Float32.add acc (Float32.mul (fst p) (snd p)))
            (combine a a) acc
  = fold_left (λ acc x, Float32.add acc (Float32.mul x x)) a acc.
Proof.
  revert acc. induction a as [|x a IH]; intros acc; simpl; [reflexivity | apply IH].
Qed.

Lemma sumSquares_nonneg (a : list spec_float) (acc : spec_float) :
  Float32.nonneg acc = true ->
  Forall (λ x, x <> S754_nan) a ->
  Float32.nonneg
    (fold_left (λ acc x, Float32.add acc (Float32.mul x x)) a acc) = true.
Proof.
  revert acc. induction a as [|x a IH]; intros acc Hacc Ha; simpl.
  - exact Hacc.
  - apply Forall_cons in Ha as [Hx Ha]. apply IH; [| exact Ha].
    apply Float32Facts.add_nonneg; [exact Hacc |].
    now apply Float32Facts.mul_self_nonneg.
Qed.

Lemma dot_zeros (a b : list spec_float) :
  Forall (λ x, Float32.is_zero x = true) a ->
  Forall (λ x, Float32.is_zero x = true) b ->
  fold_left (λ acc p, Float32.add acc (Float32.mul (fst p) (snd p)))
            (combine a b) Float32.zero
  = Float32.zero.
Proof.
  revert b. induction a as [|x a IH]; intros [|y b] Ha Hb; try reflexivity.
  apply Forall_cons in Ha as [Hx Ha]. apply Forall_cons in Hb as [Hy Hb].
  cbn [combine fold_left fst snd].
  destruct x as [sx|sx| |sx mx ex]; try discriminate.
  destruct y as [sy|sy| |sy my ey]; try discriminate.
  replace (Float32.add Float32.zero (Float32.mul (S754_zero sx) (S754_zero sy)))
    with Float32.zero by now destruct sx, sy.
  now apply IH.
Qed.

(** C7, as stated, fails on two empty vectors: every entry is zero, there
    being none, and the quotient of zero by the zero divisor is NaN. *)
Lemma computeSimilarity_empty :
  Forall (λ x, Float32.is_zero x = true) []
  /\ computeSimilarity [] [] = S754_nan
  /\ computeSimilarity [] [] <> Float32.zero.
Proof. split; [apply List.Forall_nil | split; [reflexivity | discriminate]]. Qed.

(** C7, amended: for all vectors [a] and [b] the similarity is the absolute
    value of the sum of the products [a_i * b_i] over the indices below the
    smaller length, divided by that length, each operation being a binary32
    operation and the sum taken from the left.  For two identical non-empty
    vectors of positive values it is not below zero and equals the sum of the
    squares divided by the length.  The similarity of two non-empty all-zero
    vectors is 0. *)
Theorem computeSimilarity_formula :
  (forall a b,
      computeSimilarity a b
      = Float32.div (SFabs (dot a b))
                    (Float32.of_size (Nat.min (length a) (length b))))
  /\ (forall a,
      a <> [] -> (Z.of_nat (length a) < 2 ^ 64)%Z ->
      Forall (λ x, Float32.positive_value x = true) a ->
      Float32.nonneg (computeSimilarity a a) = true
      /\ computeSimilarity a a
         = Float32.div (sumSquares a) (Float32.of_size (length a)))
  /\ (forall a b,
      a <> [] -> b <> [] ->
      Forall (λ x, Float32.is_zero x = true) a ->
      Forall (λ x, Float32.is_zero x = true) b ->
      computeSimilarity a b = Float32.zero).
Proof.
  split; [exact computeSimilarity_dot | split].
  - intros a Hne Hlen Hpos.
    assert (1 <= length a)%nat as H1 by (destruct a; [congruence | simpl; lia]).
    assert (Float32.nonneg (sumSquares a) = true) as Hsum.
    { apply sumSquares_nonneg; [reflexivity |].
      eapply Forall_impl; [exact Hpos |].
      intros x. apply Float32Facts.positive_value_not_nan. }
    assert (computeSimilarity a a
            = Float32.div (sumSquares a) (Float32.of_size (length a))) as Heq.
    { rewrite computeSimilarity_dot, Nat.min_id. unfold dot.
      rewrite dot_self. fold (sumSquares a).
      now rewrite (Float32Facts.abs_nonneg _ Hsum). }
    split; [| exact Heq].
    rewrite Heq. apply Float32Facts.div_nonneg; [exact Hsum |].
    now apply Float32Facts.of_size_finite.
  - intros a b Ha Hb Hza Hzb.
    rewrite computeSimilarity_dot. unfold dot. rewrite (dot_zeros a b Hza Hzb).
    apply Float32Facts.div_zero_positive, Float32Facts.of_size_positive.
    destruct a, b; simpl; try congruence; lia.
Qed.

Lemma computeSimilarity_formula_witness :
  ([Float32.lit 1 2; Float32.of_Z 3] <> []
   /\ (Z.of_nat (length [Float32.lit 1 2; Float32.of_Z 3]) < 2 ^ 64)%Z
   /\ Forall (λ x, Float32.positive_value x = true)
             [Float32.lit 1 2; Float32.of_Z 3]
   /\ Float32.nonneg
        (computeSimilarity [Float32.lit 1 2; Float32.of_Z 3]
                           [Float32.lit 1 2; Float32.of_Z 3]) = true)
  /\ ([Float32.zero] <> []
      /\ Forall (λ x, Float32.is_zero x = true) [Float32.zero]
      /\ computeSimilarity [Float32.zero] [Float32.zero] = Float32.zero).
Proof.
  assert ([Float32.lit 1 2; Float32.of_Z 3] <> []) as Hne by discriminate.
  assert ((Z.of_nat (length [Float32.lit 1 2; Float32.of_Z 3]) < 2 ^ 64)%Z)
    as Hlen by (vm_compute; reflexivity).
  assert (Forall (λ x, Float32.positive_value x = true)
                 [Float32.lit 1 2; Float32.of_Z 3]) as Hpos
      by (repeat apply List.Forall_cons; try apply List.Forall_nil;
          vm_compute; reflexivity).
  assert ([Float32.zero] <> []) as Hz by discriminate.
  assert (Forall (λ x, Float32.is_zero x = true) [Float32.zero]) as Hzero
      by (repeat apply List.Forall_cons; try apply List.Forall_nil; reflexivity).
  split.
  - repeat (split; [assumption |]).
    exact (proj1 (proj1 (proj2 computeSimilarity_formula) _ Hne Hlen Hpos)).
  - repeat (split; [assumption |]).
    exact (proj2 (proj2 computeSimilarity_formula) _ _ Hz Hz Hzero Hzero).
Defined.

(** *** The divisor *)

Lemma divisor_zero (a b : list spec_float) :
  divisor a b = 0%nat <-> a = [] \/ b = [].
Proof.
  unfold divisor. destruct a, b; simpl; split; intros H; auto; try lia;
    destruct H; discriminate.
Qed.

Lemma built_models (sim0 : Sim) :
  exists built,
    keywordModels (initializeKeywordModels sim0) = keywordModels sim0 ++ built
    /\ Forall (λ model, length model = 256%nat) built.
Proof.
  unfold initializeKeywordModels. cbn [keywordModels].
  eexists. split; [reflexivity |].
  repeat apply List.Forall_cons; try apply List.Forall_nil; apply repeat_length.
Qed.

Lemma construct_models :
  Forall (λ model, length model = 256%nat) (keywordModels construct).
Proof.
  unfold construct, initializeKeywordModels. cbn [keywordModels app].
  repeat apply List.Forall_cons; try apply List.Forall_nil; apply repeat_length.
Qed.

(** C10, as stated, fails in its last part: with an empty feature vector the
    divisor is zero although the keyword model has its 256 entries, and the
    similarity is the NaN of zero divided by zero. *)
Lemma divisor_zero_one_empty :
  repeat (Float32.mul (Float32.lit 1 10) (Float32.of_Z 1)) 256
    ∈ keywordModels construct
  /\ repeat (Float32.mul (Float32.lit 1 10) (Float32.of_Z 1)) 256 <> []
  /\ divisor [] (repeat (Float32.mul (Float32.lit 1 10) (Float32.of_Z 1)) 256)
     = 0%nat
  /\ computeSimilarity
       [] (repeat (Float32.mul (Float32.lit 1 10) (Float32.of_Z 1)) 256)
     = S754_nan.
Proof.
  split; [left | split; [discriminate | split; reflexivity]].
Qed.

(** C10, amended: every keyword model built by [initializeKeywordModels] has
    length 256, so for a non-empty feature vector the divisor of each
    similarity computed for [matchKeywords] is above zero and converts to a
    finite float above zero; the divisor is zero exactly when one of the two
    vectors is empty. *)
Theorem divisor_positive :
  Forall (λ model, length model = 256%nat) (keywordModels construct)
  /\ (forall sim0,
      exists built,
        keywordModels (initializeKeywordModels sim0) = keywordModels sim0 ++ built
        /\ Forall (λ model, length model = 256%nat) built)
  /\ (forall features model,
      features <> [] -> model ∈ keywordModels construct ->
      (0 < divisor features model)%nat
      /\ Float32.finite_positive (Float32.of_size (divisor features model)) = true)
  /\ (forall a b, divisor a b = 0%nat <-> a = [] \/ b = []).
Proof.
  split; [exact construct_models | split; [exact built_models | split]].
  - intros features model Hne Hin.
    pose proof construct_models as Hall. rewrite Forall_forall in Hall.
    specialize (Hall model Hin).
    assert (0 < divisor features model <= 256)%nat as Hd.
    { unfold divisor. rewrite Hall.
      destruct features; [congruence | simpl length; lia]. }
    split; [lia |].
    apply Float32Facts.of_size_finite; [lia |].
    apply Z.le_lt_trans with (m := 256%Z); [lia | reflexivity].
  - exact divisor_zero.
Qed.

Lemma divisor_positive_witness :
  [Float32.of_Z 1] <> []
  /\ repeat (Float32.mul (Float32.lit 1 10) (Float32.of_Z 1)) 256
       ∈ keywordModels construct
  /\ (0 < divisor [Float32.of_Z 1]
                  (repeat (Float32.mul (Float32.lit 1 10) (Float32.of_Z 1)) 256))%nat.
Proof.
  assert ([Float32.of_Z 1] <> []) as Hne by discriminate.
  assert (repeat (Float32.mul (Float32.lit 1 10) (Float32.of_Z 1)) 256
            ∈ keywordModels construct) as Hin by left.
  split; [exact Hne | split; [exact Hin |]].
  exact (proj1 (proj1 (proj2 (proj2 divisor_positive)) _ _ Hne Hin)).
Defined.

End VoiceFacts.

(** ** The tables after construction *)

Module Lifecycle.

Lemma applyPolicy_keeps (tier location : string) (sim : Connectivity.Sim) :
  is_Some (Connectivity.policyRules sim !! tier) ->
  snd (Connectivity.applyPolicy tier location sim) = sim.
Proof.
  intros [p Hp]. now rewrite (ConnectivityFacts.applyPolicy_present _ _ _ _ Hp).
Qed.

Lemma construct_has_tier (tier : string) :
  tier ∈ Connectivity.tierNames ->
  is_Some (Connectivity.policyRules Connectivity.construct !! tier).
Proof.
  unfold Connectivity.tierNames. rewrite !elem_of_cons, elem_of_nil.
  destruct ConnectivityFacts.construct_lookup as (H1 & H2 & H3 & H4).
  intros [-> | [-> | [-> | [-> | []]]]]; eauto.
Qed.

Lemma testEnvironment_keeps (location : string) (dis : nat -> Z) :
  snd (Connectivity.testEnvironment location dis Connectivity.construct)
  = Connectivity.construct.
Proof.
  unfold Connectivity.testEnvironment.
  pose proof (applyPolicy_keeps
                (Connectivity.evaluateTrustLevel
                   Connectivity.construct
                   (Connectivity.scanDevices location dis) location)
                location Connectivity.construct
                (construct_has_tier _
                   (ConnectivityFacts.evaluateTrustLevel_names _ _ _))) as H.
  destruct (Connectivity.applyPolicy _ _ _) as [policy sim']. exact H.
Qed.

(** Outside the runs of the program: [policyRules[trustLevel]] with a name
    that the table does not hold would insert a value-initialised entry.
    [applyPolicy] is a private member with one call, in [testEnvironment], on
    the result of [evaluateTrustLevel], so no run looks up such a name. *)
Lemma applyPolicy_inserts :
  Connectivity.policyRules Connectivity.construct !! "guest" = None
  /\ Connectivity.policyRules
       (snd (Connectivity.applyPolicy "guest" "Home" Connectivity.construct))
     !! "guest" = Some Connectivity.emptyPolicy
  /\ snd (Connectivity.applyPolicy "guest" "Home" Connectivity.construct)
     <> Connectivity.construct.
Proof.
  assert (Connectivity.policyRules Connectivity.construct !! "guest" = None)
    as Hnone by (vm_compute; reflexivity).
  assert (Connectivity.policyRules
            (snd (Connectivity.applyPolicy "guest" "Home" Connectivity.construct))
          !! "guest" = Some Connectivity.emptyPolicy) as Hsome.
  { rewrite (ConnectivityFacts.applyPolicy_absent _ _ _ Hnone). simpl.
    apply lookup_insert_eq. }
  split; [exact Hnone | split; [exact Hsome |]].
  intros Heq. rewrite Heq in Hsome. congruence.
Qed.

(** C8: no table is changed after construction by an evaluator operation.
    The lookup by [applyPolicy] of each of the four tier names, and so of
    every tier that [evaluateTrustLevel] returns, whatever the devices and
    the location, leaves the simulator exactly as constructed: the policy
    table and the trusted devices both.  More generally [applyPolicy] leaves
    any simulator as it was when the tier looked up is in its table, and it
    never touches the trusted devices.  Every run of [testEnvironment],
    whatever the location and the devices scanned, leaves the simulator as
    constructed; [authenticateUser] leaves the user-profile table and the
    nearby devices as they were, for known and unknown users alike; a
    detection round leaves the keyword models as they were.
    ([evaluateTrustLevel], [makeConnectivityDecisions],
    [isTrustedEnvironment], [matchKeywords] and [computeSimilarity] assign
    to no member.) *)
Theorem tables_unchanged :
  (forall tier location,
      tier ∈ Connectivity.tierNames ->
      snd (Connectivity.applyPolicy tier location Connectivity.construct)
      = Connectivity.construct)
  /\ (forall devices location,
      snd (Connectivity.applyPolicy
             (Connectivity.evaluateTrustLevel Connectivity.construct
                                              devices location)
             location Connectivity.construct)
      = Connectivity.construct)
  /\ (forall tier location sim,
      is_Some (Connectivity.policyRules sim !! tier) ->
      snd (Connectivity.applyPolicy tier location sim) = sim)
  /\ (forall tier location sim,
      Connectivity.trustedDevices
        (snd (Connectivity.applyPolicy tier location sim))
      = Connectivity.trustedDevices sim)
  /\ (forall location dis,
      snd (Connectivity.testEnvironment location dis Connectivity.construct)
      = Connectivity.construct)
  /\ (forall userId sim w,
      fst (Biometric.authenticateUser userId sim w) = sim)
  /\ (forall uniform normal sim,
      Voice.keywordModels (snd (Voice.detectOnce uniform normal sim))
      = Voice.keywordModels sim).
Proof.
  split.
  { intros tier location Hin.
    apply applyPolicy_keeps, construct_has_tier, Hin. }
  split.
  { intros devices location.
    apply applyPolicy_keeps, construct_has_tier,
      ConnectivityFacts.evaluateTrustLevel_names. }
  split; [exact applyPolicy_keeps |].
  split.
  { intros tier location sim.
    destruct (Connectivity.policyRules sim !! tier) as [policy |] eqn:Hlook.
    - now rewrite (ConnectivityFacts.applyPolicy_present _ _ _ _ Hlook).
    - now rewrite (ConnectivityFacts.applyPolicy_absent _ _ _ Hlook). }
  split; [exact testEnvironment_keeps |].
  split; [exact BiometricFacts.authenticateUser_keeps | reflexivity].
Qed.

Lemma tables_unchanged_witness :
  "untrusted" ∈ Connectivity.tierNames
  /\ is_Some (Connectivity.policyRules Connectivity.construct !! "untrusted")
  /\ snd (Connectivity.applyPolicy "untrusted" "Airport" Connectivity.construct)
     = Connectivity.construct
  /\ snd (Connectivity.applyPolicy "untrusted" "Airport" Connectivity.construct)
     = Connectivity.construct.
Proof.
  assert ("untrusted" ∈ Connectivity.tierNames) as Hin
      by (unfold Connectivity.tierNames; rewrite !elem_of_cons; auto).
  assert (is_Some (Connectivity.policyRules Connectivity.construct !! "untrusted"))
    as H by (eexists; vm_compute; reflexivity).
  split; [exact Hin | split; [exact H | split]].
  - exact (proj1 tables_unchanged "untrusted" "Airport" Hin).
  - exact (proj1 (proj2 (proj2 tables_unchanged))
                 "untrusted" "Airport" Connectivity.construct H).
Defined.

End Lifecycle.

(** ** The connectivity simulator: scans, scenarios and menu *)

Module ConnectivityProgramFacts.

Import Connectivity ConnectivityProgram.

(** *** The scans *)

(** X1: whatever the location, the network scan lists no network twice, has
    three or four entries, and ends with the cellular backup
    "Cellular_Data". *)
Theorem scanNetworks_backup (location : string) :
  last (scanNetworks location) = Some "Cellular_Data"
  /\ NoDup (scanNetworks location)
  /\ (3 <= length (scanNetworks location) <= 4)%nat.
Proof.
  unfold scanNetworks.
  repeat match goal with
         | |- context [String.eqb location ?s] => destruct (String.eqb location s)
         end;
    (split; [reflexivity | split; [| simpl; lia]]);
    apply (bool_decide_unpack _); vm_compute; exact I.
Qed.

Lemma scanDevices_cases (location : string) (dis : nat -> Z) :
  scanDevices location dis
  = (if String.eqb location "Home" then
       ["home_wifi"; "smart_tv"]
         ++ (if (1 <? dis 0%nat)%Z then ["car_system"] else [])
         ++ (if (0 <? dis 1%nat)%Z then ["unknown_device_1"] else [])
         ++ (if (1 <? dis 2%nat)%Z then ["strange_bt_device"] else [])
     else if String.eqb location "Office" then
       ["office_bt"]
         ++ (if (1 <? dis 0%nat)%Z then ["printer_01"] else [])
         ++ (if (0 <? dis 1%nat)%Z then ["unknown_device_1"] else [])
         ++ (if (1 <? dis 2%nat)%Z then ["strange_bt_device"] else [])
     else
       (if (0 <? dis 0%nat)%Z then ["unknown_device_1"] else [])
         ++ (if (1 <? dis 1%nat)%Z then ["strange_bt_device"] else [])).
Proof.
  unfold scanDevices.
  destruct (String.eqb location "Home"); [now rewrite <- !app_assoc |].
  destruct (String.eqb location "Office"); [now rewrite <- !app_assoc |].
  reflexivity.
Qed.

Lemma scanDevices_count (location : string) (dis : nat -> Z) :
  countTrusted (scanDevices location dis) (trustedDevices construct) 0
  = (if String.eqb location "Home" then
       if (1 <? dis 0%nat)%Z then 2 else 1
     else if String.eqb location "Office" then 1
     else 0)%Z.
Proof.
  rewrite scanDevices_cases.
  destruct (String.eqb location "Home"); [| destruct (String.eqb location "Office")];
    repeat match goal with
           | |- context [(?a <? ?b)%Z] => destruct (a <? b)%Z
           end;
    reflexivity.
Qed.

(** X2: whatever the location and the draws, the device scan lists no device
    twice and at most five devices; it finds one or two trusted devices at
    Home (two exactly when the first draw is above 1), one at the Office and
    none anywhere else. *)
Theorem scanDevices_trusted (location : string) (dis : nat -> Z) :
  NoDup (scanDevices location dis)
  /\ (length (scanDevices location dis) <= 5)%nat
  /\ countTrusted (scanDevices location dis) (trustedDevices construct) 0
     = (if String.eqb location "Home" then
          if (1 <? dis 0%nat)%Z then 2 else 1
        else if String.eqb location "Office" then 1
        else 0)%Z.
Proof.
  split; [| split; [| apply scanDevices_count]];
    rewrite scanDevices_cases;
    (destruct (String.eqb location "Home");
     [| destruct (String.eqb location "Office")]);
    repeat match goal with
           | |- context [(?a <? ?b)%Z] => destruct (a <? b)%Z
           end;
    first [ apply (bool_decide_unpack _); vm_compute; exact I | simpl; lia ].
Qed.

Lemma evaluateTrustLevel_count (sim : Sim) (devices : list string)
      (location : string) :
  evaluateTrustLevel sim devices location
  = tierFor location (countTrusted devices (trustedDevices sim) 0).
Proof. unfold evaluateTrustLevel. apply ConnectivityFacts.cascade_tierFor. Qed.

(** The tier that a test at [location] reaches. *)
Lemma scanned_tier (location : string) (dis : nat -> Z) :
  evaluateTrustLevel construct (scanDevices location dis) location
  = (if String.eqb location "Home" then
       if (1 <? dis 0%nat)%Z then "home_trusted" else "public_trusted"
     else if String.eqb location "Office" then "public_trusted"
     else if String.eqb location "Rural Area" then "emergency"
     else "untrusted").
Proof.
  rewrite evaluateTrustLevel_count.
  rewrite scanDevices_count.
  unfold tierFor.
  destruct (String.eqb_spec location "Home") as [-> | Hh].
  - destruct (1 <? dis 0%nat)%Z; reflexivity.
  - destruct (String.eqb_spec location "Office") as [-> | Ho]; [reflexivity |].
    destruct (String.eqb_spec location "Rural Area") as [-> | Hr]; [reflexivity |].
    repeat case_decide; try reflexivity; exfalso; naive_solver lia.
Qed.

(** *** Trust evaluation *)

Lemma countTrusted_app (devices more trusted : list string) (c : Z) :
  countTrusted (devices ++ more) trusted c
  = countTrusted more trusted (countTrusted devices trusted c).
Proof.
  revert c. induction devices as [|d rest IH]; intros c; simpl; [reflexivity |].
  apply IH.
Qed.

Lemma countTrusted_bounds (devices trusted : list string) (c : Z) :
  (c <= countTrusted devices trusted c)%Z.
Proof. rewrite ConnectivityFacts.countTrusted_filter. lia. Qed.

(** X3: the tier depends on the devices only through the trusted ones among
    them, counted with repetition: reordering the devices, and adding or
    dropping devices that are not trusted, changes nothing. *)
Theorem evaluateTrustLevel_trusted_only
        (sim : Sim) (devices devices' : list string) (location : string) :
  filter (λ d, d ∈ trustedDevices sim) devices
    ≡ₚ filter (λ d, d ∈ trustedDevices sim) devices' ->
  evaluateTrustLevel sim devices location
  = evaluateTrustLevel sim devices' location.
Proof.
  intros Hp. rewrite !evaluateTrustLevel_count.
  rewrite !ConnectivityFacts.countTrusted_filter.
  now rewrite (Permutation_length Hp).
Qed.

Lemma evaluateTrustLevel_trusted_only_witness :
  filter (λ d, d ∈ trustedDevices construct)
         ["smart_tv"; "car_system"; "home_wifi"]
    ≡ₚ filter (λ d, d ∈ trustedDevices construct)
              ["home_wifi"; "unknown_device_1"; "car_system"]
  /\ evaluateTrustLevel construct ["smart_tv"; "car_system"; "home_wifi"] "Home"
     = evaluateTrustLevel construct
         ["home_wifi"; "unknown_device_1"; "car_system"] "Home".
Proof.
  assert (filter (λ d, d ∈ trustedDevices construct)
                 ["smart_tv"; "car_system"; "home_wifi"]
            ≡ₚ filter (λ d, d ∈ trustedDevices construct)
                      ["home_wifi"; "unknown_device_1"; "car_system"]) as Hp.
  { change (["car_system"; "home_wifi"] ≡ₚ ["home_wifi"; "car_system"]).
    apply perm_swap. }
  split; [exact Hp |].
  exact (evaluateTrustLevel_trusted_only construct _ _ "Home" Hp).
Defined.

(** X4: more devices never lower the tier: with the tiers ranked untrusted
    and emergency below public_trusted below home_trusted, the tier for a
    device list extended by further devices ranks at least as high. *)
Theorem evaluateTrustLevel_monotone
        (sim : Sim) (devices more : list string) (location : string) :
  (tierRank (evaluateTrustLevel sim devices location)
   <= tierRank (evaluateTrustLevel sim (devices ++ more) location))%nat.
Proof.
  rewrite !evaluateTrustLevel_count, countTrusted_app.
  pose proof (countTrusted_bounds more (trustedDevices sim)
                (countTrusted devices (trustedDevices sim) 0)) as Hle.
  set (c := countTrusted devices (trustedDevices sim) 0) in *.
  set (c' := countTrusted more (trustedDevices sim) c) in *.
  unfold tierFor.
  repeat case_decide; try (vm_compute; lia); exfalso;
    intuition (lia || congruence).
Qed.

(** X5: the Office is no special case: at every location other than Home and
    Rural Area the tier is the one the Office would get with the same
    devices. *)
Theorem evaluateTrustLevel_office
        (sim : Sim) (devices : list string) (location : string) :
  location <> "Home" -> location <> "Rural Area" ->
  evaluateTrustLevel sim devices location
  = evaluateTrustLevel sim devices "Office".
Proof.
  intros Hh Hr. rewrite !evaluateTrustLevel_count. unfold tierFor.
  repeat case_decide; try reflexivity; exfalso;
    intuition (congruence || lia).
Qed.

Lemma evaluateTrustLevel_office_witness :
  "Airport" <> "Home" /\ "Airport" <> "Rural Area"
  /\ evaluateTrustLevel construct ["office_bt"] "Airport"
     = evaluateTrustLevel construct ["office_bt"] "Office".
Proof.
  assert ("Airport" <> "Home") as Hh by discriminate.
  assert ("Airport" <> "Rural Area") as Hr by discriminate.
  split; [exact Hh | split; [exact Hr |]].
  exact (evaluateTrustLevel_office construct ["office_bt"] "Airport" Hh Hr).
Defined.

(** *** The policy table *)

(** X6: a lookup by [applyPolicy], of whatever tier name, removes no entry of
    the policy table and changes none: it leaves the trusted devices alone,
    keeps every entry the table had, and afterwards the table holds the
    policy it returned under the tier looked up. *)
Theorem applyPolicy_preserves (tier location : string) (sim : Sim) :
  trustedDevices (snd (applyPolicy tier location sim)) = trustedDevices sim
  /\ policyRules sim ⊆ policyRules (snd (applyPolicy tier location sim))
  /\ policyRules (snd (applyPolicy tier location sim)) !! tier
     = Some (fst (applyPolicy tier location sim))
  /\ (forall other, other <> tier ->
        policyRules (snd (applyPolicy tier location sim)) !! other
        = policyRules sim !! other).
Proof.
  destruct (policyRules sim !! tier) as [p|] eqn:Hp.
  - rewrite (ConnectivityFacts.applyPolicy_present _ _ _ _ Hp). simpl.
    repeat split; auto.
  - rewrite (ConnectivityFacts.applyPolicy_absent _ _ _ Hp). simpl.
    split; [reflexivity | split; [| split]].
    + now apply insert_subseteq.
    + apply lookup_insert_eq.
    + intros other Hne. now apply lookup_insert_ne.
Qed.

(** X7: [initializePolicies] can be run again at no cost: a second run
    changes nothing, every run leaves the trusted devices and the entries
    under other keys alone, and after it the four tiers carry their fixed
    policies whatever the table held before. *)
Theorem initializePolicies_again (sim : Sim) :
  initializePolicies (initializePolicies sim) = initializePolicies sim
  /\ trustedDevices (initializePolicies sim) = trustedDevices sim
  /\ (forall key, key ∉ tierNames ->
        policyRules (initializePolicies sim) !! key = policyRules sim !! key)
  /\ policyRules (initializePolicies sim) !! "home_trusted"
     = Some (mkPolicy "LOW" false 1000 "FULL_ACCESS")
  /\ policyRules (initializePolicies sim) !! "public_trusted"
     = Some (mkPolicy "MEDIUM" true 500 "LIMITED_ACCESS")
  /\ policyRules (initializePolicies sim) !! "untrusted"
     = Some (mkPolicy "HIGH" true 100 "RESTRICTED")
  /\ policyRules (initializePolicies sim) !! "emergency"
     = Some (mkPolicy "CRITICAL" true 50 "EMERGENCY_ONLY").
Proof.
  split; [| split; [reflexivity | split]].
  - unfold initializePolicies. cbn [policyRules trustedDevices]. f_equal.
    apply map_eq. intros k. rewrite !lookup_insert.
    repeat case_decide; reflexivity.
  - intros key Hkey. unfold initializePolicies, tierNames in *.
    cbn [policyRules]. rewrite !lookup_insert.
    repeat case_decide; try reflexivity; subst; exfalso; apply Hkey; set_solver.
  - apply ConnectivityFacts.initializePolicies_lookup.
Qed.

(** *** Decisions *)

Lemma makeConnectivityDecisions_map (networks : list string) (policy : NetworkPolicy) :
  makeConnectivityDecisions networks policy = map (decide_network policy) networks.
Proof. induction networks as [|n rest IH]; simpl; [reflexivity | now rewrite IH]. Qed.

(** X8: for every policy there is one decision per network, in the order of
    the networks; a network is given FULL exactly under level "LOW";
    "Cellular_Data" is never BLOCKED; and a level other than "LOW", "MEDIUM"
    and "HIGH", the empty level of a value-initialised policy included, is
    handled as "CRITICAL". *)
Theorem makeConnectivityDecisions_levels
        (networks : list string) (policy : NetworkPolicy) :
  map network (makeConnectivityDecisions networks policy) = networks
  /\ Forall (λ d, access d = FULL <-> securityLevel policy = "LOW")
            (makeConnectivityDecisions networks policy)
  /\ Forall (λ d, network d = "Cellular_Data" -> access d <> BLOCKED)
            (makeConnectivityDecisions networks policy)
  /\ (securityLevel policy <> "LOW" -> securityLevel policy <> "MEDIUM" ->
      securityLevel policy <> "HIGH" ->
      makeConnectivityDecisions networks policy
      = makeConnectivityDecisions networks
          (mkPolicy "CRITICAL" true 50 "EMERGENCY_ONLY")).
Proof.
  rewrite !makeConnectivityDecisions_map.
  split; [| split; [| split]].
  - rewrite map_map. rewrite <- (map_id networks) at 2.
    apply map_ext. intros n. apply ConnectivityFacts.decide_network_network.
  - apply Forall_map, Forall_forall. intros n _. unfold decide_network.
    destruct (String.eqb_spec (securityLevel policy) "LOW") as [Hl|Hl];
      [simpl; tauto |].
    repeat match goal with
           | |- context [if ?b then _ else _] => destruct b
           end; simpl; split; intros H; congruence.
  - apply Forall_map, Forall_forall. intros n _. unfold decide_network.
    repeat match goal with
           | |- context [String.eqb ?a ?b] => destruct (String.eqb_spec a b)
           | |- context [if ?b then _ else _] => destruct b
           end; simpl; intros; congruence.
  - intros Hl Hm Hh. apply map_ext. intros n. unfold decide_network. simpl.
    destruct (String.eqb_spec (securityLevel policy) "LOW"); [contradiction |].
    destruct (String.eqb_spec (securityLevel policy) "MEDIUM"); [contradiction |].
    destruct (String.eqb_spec (securityLevel policy) "HIGH"); [contradiction |].
    reflexivity.
Qed.

Lemma makeConnectivityDecisions_levels_witness :
  securityLevel emptyPolicy <> "LOW"
  /\ securityLevel emptyPolicy <> "MEDIUM"
  /\ securityLevel emptyPolicy <> "HIGH"
  /\ makeConnectivityDecisions ["Mall_Free"; "Cellular_Data"] emptyPolicy
     = makeConnectivityDecisions ["Mall_Free"; "Cellular_Data"]
         (mkPolicy "CRITICAL" true 50 "EMERGENCY_ONLY").
Proof.
  assert (securityLevel emptyPolicy <> "LOW") as Hl by discriminate.
  assert (securityLevel emptyPolicy <> "MEDIUM") as Hm by discriminate.
  assert (securityLevel emptyPolicy <> "HIGH") as Hh by discriminate.
  split; [exact Hl | split; [exact Hm | split; [exact Hh |]]].
  exact (proj2 (proj2 (proj2
           (makeConnectivityDecisions_levels
              ["Mall_Free"; "Cellular_Data"] emptyPolicy))) Hl Hm Hh).
Defined.

(** *** One environment test *)

Lemma tested_policy (location : string) (dis : nat -> Z) :
  applyPolicy (evaluateTrustLevel construct (scanDevices location dis) location)
              location construct
  = (if String.eqb location "Home" then
       if (1 <? dis 0%nat)%Z then mkPolicy "LOW" false 1000 "FULL_ACCESS"
       else mkPolicy "MEDIUM" true 500 "LIMITED_ACCESS"
     else if String.eqb location "Office" then
       mkPolicy "MEDIUM" true 500 "LIMITED_ACCESS"
     else if String.eqb location "Rural Area" then
       mkPolicy "CRITICAL" true 50 "EMERGENCY_ONLY"
     else mkPolicy "HIGH" true 100 "RESTRICTED",
     construct).
Proof.
  rewrite scanned_tier.
  destruct ConnectivityFacts.construct_lookup as (H1 & H2 & H3 & H4).
  destruct (String.eqb location "Home"); [destruct (1 <? dis 0%nat)%Z |];
    [| | destruct (String.eqb location "Office");
         [| destruct (String.eqb location "Rural Area")]];
    now apply ConnectivityFacts.applyPolicy_present.
Qed.

Lemma testEnvironment_run (location : string) (w : World) :
  testEnvironment location construct w
  = (construct,
     mkWorld (generators w) (S (seeded w))
             (shown w ++ [testedEvent location (generators w (seeded w))])).
Proof.
  unfold testEnvironment, testedEvent, newGenerator, show, mbind, io_bind,
    mret, io_ret.
  cbn [generators seeded shown].
  now rewrite tested_policy.
Qed.

Lemma tested_level (location : string) (dis : nat -> Z) :
  levelOf (testedEvent location dis) = Some (levelAt location (dis 0%nat)).
Proof.
  unfold testedEvent, levelOf, levelAt. rewrite tested_policy. cbn [fst].
  destruct (String.eqb location "Home"); [destruct (1 <? dis 0%nat)%Z |];
    [| | destruct (String.eqb location "Office");
         [| destruct (String.eqb location "Rural Area")]];
    reflexivity.
Qed.

(** X9: a test of an environment leaves the simulator as constructed, seeds
    one generator and prints one report.  The level applied is LOW at Home
    when the first draw is above 1 and MEDIUM otherwise, MEDIUM at the
    Office, CRITICAL in a Rural Area and HIGH anywhere else.  So at Home
    every network is FULL or, without the second trusted device, every
    network is AVOID, the cellular backup included; at the Office the two
    office networks are LIMITED and the rest AVOID; anywhere else every
    network is BLOCKED but the cellular backup, which is EMERGENCY in a Rural
    Area and RESTRICTED otherwise. *)
Theorem testEnvironment_outcome (location : string) (w : World) :
  let dis := generators w (seeded w) in
  testEnvironment location construct w
  = (construct,
     mkWorld (generators w) (S (seeded w))
             (shown w ++ [testedEvent location dis]))
  /\ levelOf (testedEvent location dis) = Some (levelAt location (dis 0%nat))
  /\ accessesOf (testedEvent location dis)
     = (if String.eqb location "Home" then
          if (1 <? dis 0%nat)%Z then [FULL; FULL; FULL; FULL]
          else [AVOID; AVOID; AVOID; AVOID]
        else if String.eqb location "Office" then
          [LIMITED; LIMITED; AVOID; AVOID]
        else
          repeat BLOCKED (length (scanNetworks location) - 1)
            ++ [if String.eqb location "Rural Area" then EMERGENCY
                else RESTRICTED]).
Proof.
  intros dis. split; [apply testEnvironment_run | split].
  - apply tested_level.
  - unfold testedEvent, accessesOf. rewrite tested_policy. cbn [fst].
    unfold scanNetworks.
    destruct (String.eqb location "Home"); [destruct (1 <? dis 0%nat)%Z |];
      [reflexivity | reflexivity |].
    destruct (String.eqb location "Office"); [reflexivity |].
    destruct (String.eqb location "Rural Area");
      repeat match goal with
             | |- context [String.eqb location ?s] =>
                 destruct (String.eqb location s)
             end;
      reflexivity.
Qed.

(** *** The scenario drivers *)

Lemma testScenarios_run (locations : list string) (w : World) :
  testScenarios locations construct w
  = (construct,
     mkWorld (generators w) (seeded w + length locations)
             (shown w
                ++ imap (λ i location,
                           testedEvent location (generators w (seeded w + i)))
                        locations)).
Proof.
  revert w. induction locations as [|location rest IH]; intros w;
    cbn [testScenarios].
  - unfold mret, io_ret. cbn [imap length].
    rewrite Nat.add_0_r, app_nil_r. now destruct w.
  - unfold mbind, io_bind. rewrite testEnvironment_run, IH.
    cbn [generators seeded shown imap length].
    rewrite Nat.add_0_r, <- app_assoc. cbn [app].
    f_equal. f_equal; [lia |]. f_equal. f_equal.
    apply imap_ext. intros i x _. cbn. f_equal. f_equal. lia.
Qed.

(** X10: the multi-scenario test visits Home, Office, Public Cafe, Shopping
    Mall, Airport and Rural Area in this order, one report and one generator
    each, and leaves the simulator as constructed; the levels applied are
    LOW or MEDIUM at Home (by the first draw there), then MEDIUM, HIGH, HIGH,
    HIGH and CRITICAL, whatever the draws. *)
Theorem testMultipleScenarios_levels (w : World) :
  exists events,
    testMultipleScenarios construct w
    = (construct,
       mkWorld (generators w) (seeded w + 6) (shown w ++ events))
    /\ events
       = imap (λ i location,
                 testedEvent location (generators w (seeded w + i)))
              scenarios
    /\ map levelOf events
       = [Some (levelAt "Home" (generators w (seeded w) 0%nat));
          Some "MEDIUM"; Some "HIGH"; Some "HIGH"; Some "HIGH";
          Some "CRITICAL"].
Proof.
  eexists. split; [apply (testScenarios_run scenarios w) | split; [reflexivity |]].
  unfold scenarios. cbn [imap map compose].
  rewrite !tested_level, Nat.add_0_r. reflexivity.
Qed.

Lemma scanRounds_run (todo : nat) (networks devices : list string) (w : World) :
  scanRounds todo networks devices w
  = (match todo with
     | O => (networks, devices)
     | S k => (scanNetworks "Test",
               scanDevices "Test" (generators w (seeded w + k)))
     end,
     mkWorld (generators w) (seeded w + todo) (shown w)).
Proof.
  revert networks devices w.
  induction todo as [|todo IH]; intros networks devices w; cbn [scanRounds].
  - unfold mret, io_ret. rewrite Nat.add_0_r. now destruct w.
  - unfold mbind, io_bind, newGenerator. rewrite IH.
    cbn [generators seeded shown].
    destruct todo as [|k].
    + rewrite !Nat.add_0_r. f_equal. f_equal. lia.
    + f_equal; [| f_equal; lia]. f_equal. f_equal. f_equal. lia.
Qed.

Lemma scanDevices_elsewhere (dis : nat -> Z) :
  (length (scanDevices "Test" dis) <= 2)%nat.
Proof.
  rewrite scanDevices_cases. cbn.
  destruct (0 <? dis 0%nat)%Z, (1 <? dis 1%nat)%Z; simpl; lia.
Qed.

Lemma testBatteryOptimization_report' (w : World) :
  exists events,
    testBatteryOptimization w
    = (tt, mkWorld (generators w) (seeded w + 7) (shown w ++ events)).
Proof.
  unfold testBatteryOptimization, powerModes. cbn [testModes].
  unfold mbind, io_bind, show, mret, io_ret.
  change (Z.to_nat (scanIntensityOf "HIGH_POWER")) with 4%nat.
  change (Z.to_nat (scanIntensityOf "BALANCED")) with 2%nat.
  change (Z.to_nat (scanIntensityOf "LOW_POWER")) with 1%nat.
  change (Z.to_nat (scanIntensityOf "ULTRA_SAVE")) with 0%nat.
  repeat (rewrite scanRounds_run; cbn [generators seeded shown fst snd length]).
  rewrite <- !app_assoc. cbn [app].
  eexists. replace (seeded w + 4 + 2 + 1 + 0) with (seeded w + 7) by lia.
  reflexivity.
Qed.

(** X11: the battery test reports, for the modes HIGH_POWER, BALANCED,
    LOW_POWER and ULTRA_SAVE in this order, impacts of 40, 20, 10 and 0
    percent; it seeds seven generators in all; every scanning mode finds
    three networks and at most two devices, and ULTRA_SAVE, which scans
    nothing, finds none. *)
Theorem testBatteryOptimization_report (w : World) :
  exists d1 d2 d3,
    (d1 <= 2 /\ d2 <= 2 /\ d3 <= 2)%nat
    /\ testBatteryOptimization w
       = (tt,
          mkWorld (generators w) (seeded w + 7)
                  (shown w
                     ++ [Battery "HIGH_POWER" 3 d1 40;
                         Battery "BALANCED" 3 d2 20;
                         Battery "LOW_POWER" 3 d3 10;
                         Battery "ULTRA_SAVE" 0 0 0])).
Proof.
  exists (length (scanDevices "Test" (generators w (seeded w + 3)))),
         (length (scanDevices "Test" (generators w (seeded w + 4 + 1)))),
         (length (scanDevices "Test" (generators w (seeded w + 4 + 2 + 0)))).
  split; [repeat split; apply scanDevices_elsewhere |].
  unfold testBatteryOptimization, powerModes. cbn [testModes].
  unfold mbind, io_bind, show, mret, io_ret.
  change (Z.to_nat (scanIntensityOf "HIGH_POWER")) with 4%nat.
  change (Z.to_nat (scanIntensityOf "BALANCED")) with 2%nat.
  change (Z.to_nat (scanIntensityOf "LOW_POWER")) with 1%nat.
  change (Z.to_nat (scanIntensityOf "ULTRA_SAVE")) with 0%nat.
  repeat (rewrite scanRounds_run; cbn [generators seeded shown fst snd length]).
  rewrite <- !app_assoc. cbn [app].
  replace (seeded w + 4 + 2 + 1 + 0) with (seeded w + 7) by lia.
  reflexivity.
Qed.

(** *** The menu *)

Lemma dispatch_run (choice : Z) (w : World) :
  exists events,
    dispatch choice construct w
    = (construct,
       mkWorld (generators w) (seeded (snd (dispatch choice construct w)))
               (shown w ++ events))
    /\ (choice = 7%Z -> events = [Exiting]).
Proof.
  unfold dispatch.
  destruct (choice =? 1)%Z eqn:E1;
    [rewrite testEnvironment_run; eexists; split; [reflexivity | intros ->; discriminate] |].
  destruct (choice =? 2)%Z eqn:E2;
    [rewrite testEnvironment_run; eexists; split; [reflexivity | intros ->; discriminate] |].
  destruct (choice =? 3)%Z eqn:E3;
    [rewrite testEnvironment_run; eexists; split; [reflexivity | intros ->; discriminate] |].
  destruct (choice =? 4)%Z eqn:E4.
  { unfold testMultipleScenarios. rewrite testScenarios_run.
    eexists; split; [reflexivity | intros ->; discriminate]. }
  destruct (choice =? 5)%Z eqn:E5.
  { destruct (testBatteryOptimization_report' w) as (events & Hrun).
    unfold mbind, io_bind, mret, io_ret. rewrite Hrun.
    eexists; split; [reflexivity | intros ->; discriminate]. }
  destruct (choice =? 6)%Z eqn:E6; [eexists; split; [reflexivity | intros ->; discriminate] |].
  destruct (choice =? 7)%Z eqn:E7; eexists; split; try reflexivity;
    intros ->; discriminate.
Qed.

Lemma dispatch_seeded (choice : Z) (w : World) :
  exists k, seeded (snd (dispatch choice construct w)) = (seeded w + k)%nat.
Proof.
  unfold dispatch.
  destruct (choice =? 1)%Z;
    [rewrite testEnvironment_run; exists 1%nat; cbn; lia |].
  destruct (choice =? 2)%Z;
    [rewrite testEnvironment_run; exists 1%nat; cbn; lia |].
  destruct (choice =? 3)%Z;
    [rewrite testEnvironment_run; exists 1%nat; cbn; lia |].
  destruct (choice =? 4)%Z.
  { unfold testMultipleScenarios. rewrite testScenarios_run.
    eexists. reflexivity. }
  destruct (choice =? 5)%Z.
  { destruct (testBatteryOptimization_report' w) as (events & Hrun).
    unfold mbind, io_bind, mret, io_ret. rewrite Hrun.
    eexists. reflexivity. }
  destruct (choice =? 6)%Z; [exists 0%nat; now rewrite Nat.add_0_r |].
  destruct (choice =? 7)%Z; exists 0%nat; now rewrite Nat.add_0_r.
Qed.

Lemma menuLoop_run (choices : list Z) (w : World) :
  exists events n,
    menuLoop choices construct w
    = ((bool_decide (7%Z ∈ choices), construct),
       mkWorld (generators w) (seeded w + n) (shown w ++ events)).
Proof.
  revert w. induction choices as [|choice rest IH]; intros w; cbn [menuLoop].
  - exists [], 0%nat. unfold mret, io_ret.
    rewrite app_nil_r, Nat.add_0_r. now destruct w.
  - unfold mbind, io_bind.
    destruct (dispatch_run choice w) as (events & Hrun & _).
    destruct (dispatch_seeded choice w) as [k Hk].
    rewrite Hrun, Hk.
    destruct (Z.eqb_spec choice 7) as [-> | Hne].
    + exists events, k. unfold mret, io_ret.
      rewrite bool_decide_eq_true_2 by left. reflexivity.
    + destruct (IH (mkWorld (generators w) (seeded w + k) (shown w ++ events)))
        as (events' & n & ->).
      cbn [generators seeded shown].
      exists (events ++ events'), (k + n)%nat.
      rewrite <- app_assoc, Nat.add_assoc.
      f_equal. f_equal. apply bool_decide_ext.
      rewrite elem_of_cons. intuition congruence.
Qed.

(** X12: through every sequence of menu choices and whatever the draws, the
    simulator stays as constructed: no choice changes the policy table or
    the trusted devices.  The loop is left exactly when a 7 is read; what
    was printed before stays printed and the count of generators seeded
    never goes down. *)
Theorem main_keeps_tables (choices : list Z) (w : World) :
  snd (fst (main choices w)) = construct
  /\ fst (fst (main choices w)) = bool_decide (7%Z ∈ choices)
  /\ shown w `prefix_of` shown (snd (main choices w))
  /\ (seeded w <= seeded (snd (main choices w)))%nat.
Proof.
  unfold main. destruct (menuLoop_run choices w) as (events & n & ->).
  cbn [fst snd shown seeded].
  repeat split; [now exists events | lia].
Qed.

Lemma menuLoop_stops (pre post : list Z) (sim : Sim) (w : World) :
  menuLoop (pre ++ 7%Z :: post) sim w = menuLoop (pre ++ [7%Z]) sim w.
Proof.
  revert sim w. induction pre as [|choice rest IH]; intros sim w;
    cbn [app menuLoop]; unfold mbind, io_bind.
  - destruct (dispatch 7 sim w) as [sim' w']. reflexivity.
  - destruct (dispatch choice sim w) as [sim' w'].
    destruct (choice =? 7)%Z; [reflexivity | apply IH].
Qed.

Lemma menuLoop_exiting (pre : list Z) (sim : Sim) (w : World) :
  last (shown (snd (menuLoop (pre ++ [7%Z]) sim w))) = Some Exiting.
Proof.
  revert sim w. induction pre as [|choice rest IH]; intros sim w;
    cbn [app menuLoop]; unfold mbind, io_bind.
  - cbn. apply last_snoc.
  - destruct (dispatch choice sim w) as [sim' w'] eqn:Hd.
    destruct (Z.eqb_spec choice 7) as [-> | Hne]; [| apply IH].
    cbn in Hd. injection Hd as _ <-. cbn. apply last_snoc.
Qed.

(** X13: numbers that follow the first 7 on standard input are never
    acted on: the run is that of the input cut after its first 7, and the
    last thing printed is the farewell line. *)
Theorem main_stops_at_seven (pre post : list Z) (w : World) :
  main (pre ++ 7%Z :: post) w = main (pre ++ [7%Z]) w
  /\ last (shown (snd (main (pre ++ 7%Z :: post) w))) = Some Exiting.
Proof.
  unfold main. rewrite menuLoop_stops.
  split; [reflexivity | apply menuLoop_exiting].
Qed.

End ConnectivityProgramFacts.

(** ** The biometric simulator: scenarios and menu *)

Module BiometricProgramFacts.

Import Biometric BiometricProgram.

(** One attempt for a known user, written out. *)
Lemma authenticateUser_known (userId : string) (sim : Sim) (w : World)
      (profile : UserProfile) :
  userDatabase sim !! userId = Some profile ->
  authenticateUser userId sim w
  = (sim,
     mkWorld (draws w)
             (if voiceDraw w then S (drawn w) else S (S (drawn w)))
             (calls w ++ CallVoice (voicePrintHash profile)
                    :: (if voiceDraw w then [] else [CallPIN (pin profile)]))
             (out w ++ [lineOf userId
                          (outcomePolicy (voiceDraw w)
                             (isTrustedEnvironment sim profile) (pinDraw w))])).
Proof.
  intros H. rewrite (BiometricFacts.authenticateUser_present _ _ _ _ H).
  unfold authenticateVoice, verifyPIN, called, draw, printed, voiceDraw,
    pinDraw, mbind, io_bind, mret, io_ret.
  cbn [draws drawn calls out].
  destruct (Float32.gt (draws w (drawn w)) (Float32.lit 3 10));
    cbn [draws drawn calls out]; rewrite <- ?app_assoc; reflexivity.
Qed.

(** *** The environment check *)

(** X14: [isTrustedEnvironment] looks at nothing but which devices are
    trusted and which are nearby: if it holds, it still holds after more
    devices are trusted or come near, after either list is reordered or
    repeats a device, and for any other table, voice print or PIN. *)
Theorem isTrustedEnvironment_devices
        (sim sim' : Sim) (profile profile' : UserProfile) :
  trustedDevices profile ⊆ trustedDevices profile' ->
  nearbyDevices sim ⊆ nearbyDevices sim' ->
  isTrustedEnvironment sim profile = true ->
  isTrustedEnvironment sim' profile' = true.
Proof.
  unfold isTrustedEnvironment. rewrite !BiometricFacts.anyNearby_common.
  intros Ht Hn (d & Hd & Hd'). exists d. split; [now apply Ht | now apply Hn].
Qed.

Lemma isTrustedEnvironment_devices_witness :
  trustedDevices (mkProfile "v" "1" ["car_bt"])
    ⊆ trustedDevices (mkProfile "voice_hash_1234" "5678" ["home_bt"; "car_bt"])
  /\ nearbyDevices (mkSim ∅ ["car_bt"])
       ⊆ nearbyDevices (scanNearbyDevices construct)
  /\ isTrustedEnvironment (mkSim ∅ ["car_bt"]) (mkProfile "v" "1" ["car_bt"]) = true
  /\ isTrustedEnvironment (scanNearbyDevices construct)
       (mkProfile "voice_hash_1234" "5678" ["home_bt"; "car_bt"]) = true.
Proof.
  assert (trustedDevices (mkProfile "v" "1" ["car_bt"])
            ⊆ trustedDevices
                (mkProfile "voice_hash_1234" "5678" ["home_bt"; "car_bt"]))
    as Ht by (cbn; set_solver).
  assert (nearbyDevices (mkSim ∅ ["car_bt"])
            ⊆ nearbyDevices (scanNearbyDevices construct))
    as Hn by (cbn; set_solver).
  assert (isTrustedEnvironment (mkSim ∅ ["car_bt"])
            (mkProfile "v" "1" ["car_bt"]) = true) as Hy by reflexivity.
  split; [exact Ht | split; [exact Hn | split; [exact Hy |]]].
  exact (isTrustedEnvironment_devices _ _ _ _ Ht Hn Hy).
Defined.

(** *** One attempt *)

(** X15: the nearby devices never change the verdict.  Two attempts for the
    same user against the same table and the same draws, under any two sets
    of nearby devices, run the same checks, take the same draws and print
    lines that differ at most in the environment note. *)
Theorem authenticateUser_same_verdict
        (userId : string) (db : gmap string UserProfile)
        (nearby nearby' : list string) (w : World) :
  drawn (snd (authenticateUser userId (mkSim db nearby) w))
  = drawn (snd (authenticateUser userId (mkSim db nearby') w))
  /\ calls (snd (authenticateUser userId (mkSim db nearby) w))
     = calls (snd (authenticateUser userId (mkSim db nearby') w))
  /\ map verdictOf (out (snd (authenticateUser userId (mkSim db nearby) w)))
     = map verdictOf (out (snd (authenticateUser userId (mkSim db nearby') w))).
Proof.
  destruct (db !! userId) as [profile|] eqn:H.
  - rewrite !(authenticateUser_known userId _ w profile) by exact H.
    cbn [snd drawn calls out].
    split; [reflexivity | split; [reflexivity |]].
    rewrite !map_app. f_equal. cbn [map]. f_equal.
    unfold outcomePolicy.
    destruct (voiceDraw w), (isTrustedEnvironment (mkSim db nearby) profile),
      (isTrustedEnvironment (mkSim db nearby') profile); reflexivity.
  - rewrite !BiometricFacts.authenticateUser_absent by exact H.
    auto.
Qed.

(** X16: for a known user an attempt fails only when the voice check and the
    PIN check both fail, and the line of a failed attempt names "PIN"; the
    attempt takes one draw when the voice check succeeds and two when it
    does not. *)
Theorem authenticateUser_failure
        (userId : string) (sim : Sim) (w : World) (profile : UserProfile) :
  userDatabase sim !! userId = Some profile ->
  exists line,
    out (snd (authenticateUser userId sim w)) = out w ++ [line]
    /\ (failed line = true <-> voiceDraw w = false /\ pinDraw w = false)
    /\ (failed line = true -> methodOf line = Some "PIN")
    /\ drawn (snd (authenticateUser userId sim w))
       = (if voiceDraw w then drawn w + 1 else drawn w + 2)%nat.
Proof.
  intros H. rewrite (authenticateUser_known userId sim w profile H).
  cbn [snd out drawn]. eexists. split; [reflexivity |].
  unfold outcomePolicy.
  destruct (voiceDraw w), (isTrustedEnvironment sim profile), (pinDraw w);
    cbn; repeat split; intros; try discriminate; try tauto; try lia;
    intuition discriminate.
Qed.

Lemma authenticateUser_failure_witness :
  userDatabase construct !! "matseliso"
  = Some (mkProfile "voice_hash_5678" "1234" ["office_wifi"])
  /\ exists line,
      out (snd (authenticateUser "matseliso" construct
                  (mkWorld (fun _ => Float32.lit 1 10) 0 [] [])))
      = [] ++ [line]
      /\ failed line = true.
Proof.
  assert (userDatabase construct !! "matseliso"
          = Some (mkProfile "voice_hash_5678" "1234" ["office_wifi"])) as H
      by (vm_compute; reflexivity).
  split; [exact H |].
  destruct (authenticateUser_failure
              "matseliso" construct
              (mkWorld (fun _ => Float32.lit 1 10) 0 [] []) _ H)
    as (line & Hout & Hfail & _).
  exists line. split; [exact Hout |].
  apply Hfail. split; vm_compute; reflexivity.
Defined.

(** *** The scenario drivers *)

(** One attempt for a known user, as the drivers need it. *)
Lemma known_step (userId : string) (sim : Sim) (w : World) (profile : UserProfile) :
  userDatabase sim !! userId = Some profile ->
  exists line w',
    authenticateUser userId sim w = (sim, w')
    /\ out w' = out w ++ [line]
    /\ userOf line = userId
    /\ methodOf line <> None
    /\ (noteOf line = " (Trusted Environment)"
        <-> isTrustedEnvironment sim profile = true
            /\ methodOf line = Some "Voice")
    /\ (noteOf line = " (Trusted Environment)" \/ noteOf line = "")
    /\ (drawn w + 1 <= drawn w' <= drawn w + 2)%nat.
Proof.
  intros H. rewrite (authenticateUser_known userId sim w profile H).
  eexists. eexists. split; [reflexivity |]. cbn [out drawn].
  split; [reflexivity |]. unfold outcomePolicy.
  destruct (voiceDraw w), (isTrustedEnvironment sim profile), (pinDraw w);
    cbn; repeat split; intros; try discriminate; try tauto; try lia;
    intuition discriminate.
Qed.

Lemma constructed_users (nearby : list string) :
  userDatabase (mkSim (userDatabase construct) nearby) !! "thabo"
  = Some (mkProfile "voice_hash_1234" "5678" ["home_bt"; "car_bt"])
  /\ userDatabase (mkSim (userDatabase construct) nearby) !! "matseliso"
     = Some (mkProfile "voice_hash_5678" "1234" ["office_wifi"])
  /\ userDatabase (mkSim (userDatabase construct) nearby) !! "ntate_john"
     = Some (mkProfile "voice_hash_9012" "4321" ["home_bt"; "personal_device"])
  /\ userDatabase (mkSim (userDatabase construct) nearby) !! "unknown_user" = None.
Proof. cbn [userDatabase]. repeat split; vm_compute; reflexivity. Qed.

Lemma testUserAuthentication_run (nearby : list string) (w : World) :
  exists l1 l2 l3 w',
    testUserAuthentication (mkSim (userDatabase construct) nearby) w
    = (scanNearbyDevices construct, w')
    /\ out w' = out w ++ [l1; l2; l3; NotFound "unknown_user"]
    /\ map userOf [l1; l2; l3] = ["thabo"; "matseliso"; "ntate_john"]
    /\ Forall (λ l, methodOf l <> None) [l1; l2; l3]
    /\ Forall (λ l, noteOf l = " (Trusted Environment)"
                    <-> methodOf l = Some "Voice") [l1; l2; l3]
    /\ (drawn w + 3 <= drawn w' <= drawn w + 6)%nat.
Proof.
  unfold testUserAuthentication, mbind, io_bind.
  change (scanNearbyDevices (mkSim (userDatabase construct) nearby))
    with (scanNearbyDevices construct).
  set (sim := scanNearbyDevices construct).
  destruct (constructed_users (nearbyDevices sim)) as (H1 & H2 & H3 & H4).
  change (mkSim (userDatabase construct) (nearbyDevices sim)) with sim
    in H1, H2, H3, H4.
  destruct (known_step "thabo" sim w _ H1)
    as (l1 & w1 & -> & Ho1 & Hu1 & Hm1 & Hn1 & _ & Hd1).
  destruct (known_step "matseliso" sim w1 _ H2)
    as (l2 & w2 & -> & Ho2 & Hu2 & Hm2 & Hn2 & _ & Hd2).
  destruct (known_step "ntate_john" sim w2 _ H3)
    as (l3 & w3 & -> & Ho3 & Hu3 & Hm3 & Hn3 & _ & Hd3).
  rewrite (BiometricFacts.authenticateUser_absent _ _ _ H4).
  exists l1, l2, l3. eexists. split; [reflexivity |].
  cbn [out drawn printed].
  split; [rewrite Ho3, Ho2, Ho1, <- !app_assoc; reflexivity |].
  split; [cbn [map]; now rewrite Hu1, Hu2, Hu3 |].
  split; [repeat apply List.Forall_cons; try apply List.Forall_nil; auto |].
  split; [| lia].
  repeat apply List.Forall_cons; try apply List.Forall_nil.
  - rewrite Hn1. intuition.
  - rewrite Hn2. intuition.
  - rewrite Hn3. intuition.
Qed.

(** X17: the user-authentication test rescans the devices and prints four
    lines: one report each for thabo, matseliso and ntate_john, in this
    order, each of them a report of an attempt that names its method and
    none a not-found line, then the not-found line of the unknown user.
    After the rescan
    each of the three has a trusted device nearby, so a report carries the
    trusted-environment note exactly when its method is "Voice".  The test
    takes between three and six draws. *)
Theorem testUserAuthentication_lines (nearby : list string) (w : World) :
  exists l1 l2 l3 w',
    testUserAuthentication (mkSim (userDatabase construct) nearby) w
    = (scanNearbyDevices construct, w')
    /\ out w' = out w ++ [l1; l2; l3; NotFound "unknown_user"]
    /\ map userOf [l1; l2; l3] = ["thabo"; "matseliso"; "ntate_john"]
    /\ Forall (λ l, methodOf l <> None) [l1; l2; l3]
    /\ Forall (λ l, noteOf l = " (Trusted Environment)"
                    <-> methodOf l = Some "Voice") [l1; l2; l3]
    /\ (drawn w + 3 <= drawn w' <= drawn w + 6)%nat.
Proof.
  destruct (testUserAuthentication_run nearby w)
    as (l1 & l2 & l3 & w' & Hrun & Hout & Hu & Hm & Hn & Hd).
  exists l1, l2, l3, w'.
  split; [exact Hrun | split; [exact Hout | split; [exact Hu |]]].
  split; [exact Hm | split; [exact Hn | exact Hd]].
Qed.

Lemma testEnvironments_known (envs : list string) (nearby : list string) (w : World) :
  envs <> [] ->
  exists lines w',
    testEnvironments envs (mkSim (userDatabase construct) nearby) w
    = (mkSim (userDatabase construct)
             (environmentDevices (List.last envs "")), w')
    /\ out w' = out w ++ lines
    /\ Forall2 (λ env l,
                  userOf l = "thabo" /\ methodOf l <> None
                  /\ (noteOf l = " (Trusted Environment)"
                      <-> String.eqb env "Home" = true
                          /\ methodOf l = Some "Voice")
                  /\ (noteOf l = " (Trusted Environment)" \/ noteOf l = ""))
               envs lines
    /\ (drawn w + length envs <= drawn w' <= drawn w + 2 * length envs)%nat.
Proof.
  revert nearby w. induction envs as [|env rest IH]; intros nearby w Hne;
    [congruence |].
  cbn [testEnvironments userDatabase]. unfold mbind, io_bind.
  destruct (constructed_users (environmentDevices env)) as (H1 & _).
  destruct (known_step "thabo" _ w _ H1)
    as (l & w1 & -> & Ho & Hu & Hm & Hn & Hn' & Hd).
  assert (isTrustedEnvironment
            (mkSim (userDatabase construct) (environmentDevices env))
            (mkProfile "voice_hash_1234" "5678" ["home_bt"; "car_bt"]) = true
          <-> String.eqb env "Home" = true) as Htrust.
  { unfold environmentDevices.
    destruct (String.eqb env "Home"); [now split |].
    destruct (String.eqb env "Office"); [now split |].
    destruct (String.eqb env "Public"); now split. }
  rewrite Htrust in Hn.
  destruct rest as [|env' rest'].
  - cbn [testEnvironments]. unfold mret, io_ret.
    exists [l], w1. split; [reflexivity |]. split; [exact Ho |].
    split; [| cbn [length]; lia].
    apply List.Forall2_cons; [| apply List.Forall2_nil]. auto.
  - destruct (IH (environmentDevices env) w1 ltac:(discriminate))
      as (lines & w' & Hrun & Hout & Hall & Hdr).
    rewrite Hrun. exists (l :: lines), w'.
    split; [reflexivity |].
    split; [rewrite Hout, Ho, <- app_assoc; reflexivity |].
    split; [apply List.Forall2_cons; auto |].
    cbn [length] in *. lia.
Qed.

(** X18: the context test stages the four environments Home, Office, Public
    and Unknown and prints one report on thabo for each.  Only the Home
    report can carry the trusted-environment note, and it does exactly when
    its method is "Voice"; the other three never do.  The test leaves the
    user table as constructed and the devices of the Unknown environment as
    the nearby ones. *)
Theorem testContextAwareness_notes (nearby : list string) (w : World) :
  exists l1 l2 l3 l4 w',
    testContextAwareness (mkSim (userDatabase construct) nearby) w
    = (mkSim (userDatabase construct) ["strange_device"; "unknown_network"], w')
    /\ out w' = out w ++ [l1; l2; l3; l4]
    /\ Forall (λ l, userOf l = "thabo" /\ methodOf l <> None) [l1; l2; l3; l4]
    /\ (noteOf l1 = " (Trusted Environment)" <-> methodOf l1 = Some "Voice")
    /\ noteOf l2 = "" /\ noteOf l3 = "" /\ noteOf l4 = "".
Proof.
  destruct (testEnvironments_known environments nearby w ltac:(discriminate))
    as (lines & w' & Hrun & Hout & Hall & _).
  unfold environments in Hall.
  repeat match goal with
         | H : Forall2 _ (_ :: _) _ |- _ =>
             apply Forall2_cons_inv_l in H as (? & ? & ? & H & ->)
         | H : Forall2 _ [] _ |- _ => apply Forall2_nil_inv_l in H as ->
         end.
  do 4 eexists. exists w'. split; [exact Hrun |]. split; [exact Hout |].
  repeat match goal with H : _ /\ _ |- _ => destruct H end.
  split; [repeat apply List.Forall_cons; try apply List.Forall_nil; auto |].
  repeat match goal with
         | H : noteOf _ = _ <-> String.eqb _ _ = true /\ _ |- _ => cbn in H
         end.
  repeat split; intuition (try discriminate; try congruence).
Qed.

Lemma quickSuccesses_bounds (draws : nat -> spec_float) (k n : nat) :
  (0 <= quickSuccesses draws k n <= Z.of_nat n)%Z.
Proof.
  revert k. induction n as [|n IH]; intros k; cbn [quickSuccesses]; [lia |].
  specialize (IH (S k)).
  destruct (Float32.gt (draws k) (Float32.lit 4 10)); lia.
Qed.

Lemma stressAttempts_run (todo : nat) (successCount : Z) (w : World) :
  stressAttempts todo successCount w
  = ((successCount + quickSuccesses (draws w) (drawn w) todo)%Z,
     mkWorld (draws w) (drawn w + todo) (calls w) (out w)).
Proof.
  revert successCount w. induction todo as [|todo IH]; intros c w;
    cbn [stressAttempts quickSuccesses].
  - unfold mret, io_ret. rewrite Z.add_0_r, Nat.add_0_r. now destruct w.
  - unfold quickAuthTest, draw, mbind, io_bind, mret, io_ret. rewrite IH.
    cbn [draws drawn calls out].
    f_equal; [| f_equal; lia].
    destruct (Float32.gt (draws w (drawn w)) (Float32.lit 4 10)); lia.
Qed.

(** X19: the stress test makes five quick attempts, each on one draw and
    successful exactly when the draw is above 0.4.  The count it reports is
    the number of those successes, from 0 to 5.  It rescans the nearby
    devices, runs neither the voice nor the PIN check, prints no
    authentication line and leaves the user table alone. *)
Theorem stressTest_count (sim : Sim) (w : World) :
  stressTest sim w
  = ((quickSuccesses (draws w) (drawn w) 5, scanNearbyDevices sim),
     mkWorld (draws w) (drawn w + 5) (calls w) (out w))
  /\ (0 <= quickSuccesses (draws w) (drawn w) 5 <= 5)%Z
  /\ userDatabase (scanNearbyDevices sim) = userDatabase sim.
Proof.
  split; [| split; [apply (quickSuccesses_bounds _ _ 5) | reflexivity]].
  unfold stressTest, mbind, io_bind, mret, io_ret.
  now rewrite stressAttempts_run.
Qed.

(** *** The menu *)

(** The lines the program can print about an attempt. *)
Lemma dispatch_users (choice : Z) (nearby : list string) (w : World) :
  exists nearby' lines w',
    dispatch choice (mkSim (userDatabase construct) nearby) w
    = (mkSim (userDatabase construct) nearby', w')
    /\ out w' = out w ++ lines
    /\ Forall (λ l, l = NotFound "unknown_user"
                    \/ (methodOf l <> None
                        /\ userOf l ∈ ["thabo"; "matseliso"; "ntate_john"]))
              lines.
Proof.
  unfold dispatch.
  destruct (choice =? 1)%Z.
  { destruct (testUserAuthentication_run nearby w)
      as (l1 & l2 & l3 & w' & Hrun & Hout & Hu & Hm & _ & _).
    exists (nearbyDevices (scanNearbyDevices construct)),
           [l1; l2; l3; NotFound "unknown_user"], w'.
    split; [exact Hrun | split; [exact Hout |]].
    cbn [map] in Hu. injection Hu as Hu1 Hu2 Hu3.
    apply Forall_cons in Hm as [Hm1 Hm]. apply Forall_cons in Hm as [Hm2 Hm].
    apply Forall_cons in Hm as [Hm3 _].
    repeat apply List.Forall_cons; try apply List.Forall_nil;
      try (right; split; [assumption |]); [| | | now left].
    - rewrite Hu1. set_solver.
    - rewrite Hu2. set_solver.
    - rewrite Hu3. set_solver. }
  destruct (choice =? 2)%Z.
  { destruct (testEnvironments_known environments nearby w ltac:(discriminate))
      as (lines & w' & Hrun & Hout & Hall & _).
    eexists. exists lines, w'. split; [exact Hrun | split; [exact Hout |]].
    clear Hrun Hout. induction Hall as [|env l envs lines Hl _ IH];
      [apply List.Forall_nil |].
    apply List.Forall_cons; [| exact IH].
    right. destruct Hl as (Hu & Hm & _). split; [exact Hm |].
    rewrite Hu. set_solver. }
  destruct (choice =? 3)%Z.
  { unfold stressTest, mbind, io_bind, mret, io_ret.
    rewrite stressAttempts_run. cbn [snd].
    eexists. exists []. eexists. split; [reflexivity |].
    cbn [out]. split; [now rewrite app_nil_r | apply List.Forall_nil]. }
  exists nearby, [], w. unfold mret, io_ret.
  split; [reflexivity | split; [now rewrite app_nil_r | apply List.Forall_nil]].
Qed.

Lemma menuLoop_users (choices : list Z) (nearby : list string) (w : World) :
  exists nearby' lines w',
    menuLoop choices (mkSim (userDatabase construct) nearby) w
    = ((bool_decide (5%Z ∈ choices), mkSim (userDatabase construct) nearby'), w')
    /\ out w' = out w ++ lines
    /\ Forall (λ l, l = NotFound "unknown_user"
                    \/ (methodOf l <> None
                        /\ userOf l ∈ ["thabo"; "matseliso"; "ntate_john"]))
              lines.
Proof.
  revert nearby w. induction choices as [|choice rest IH]; intros nearby w;
    cbn [menuLoop].
  - exists nearby, [], w. unfold mret, io_ret.
    split; [reflexivity | split; [now rewrite app_nil_r | apply List.Forall_nil]].
  - unfold mbind, io_bind.
    destruct (dispatch_users choice nearby w)
      as (nearby1 & lines1 & w1 & -> & Hout1 & Hok1).
    destruct (Z.eqb_spec choice 5) as [-> | Hne].
    + exists nearby1, lines1, w1. unfold mret, io_ret.
      rewrite bool_decide_eq_true_2 by left. auto.
    + destruct (IH nearby1 w1) as (nearby2 & lines2 & w2 & -> & Hout2 & Hok2).
      exists nearby2, (lines1 ++ lines2), w2.
      split; [| split].
      * f_equal. f_equal. apply bool_decide_ext.
        rewrite elem_of_cons. intuition congruence.
      * now rewrite Hout2, Hout1, <- app_assoc.
      * now apply Forall_app.
Qed.

(** X20: through every sequence of menu choices and whatever the draws, the
    user table stays as constructed.  The loop is left exactly when a 5 is
    read.  Every line the program prints about an attempt is the not-found
    line of "unknown_user" or a report on thabo, matseliso or ntate_john: no
    other user is ever reported on. *)
Theorem main_keeps_users (choices : list Z) (w : World) :
  userDatabase (snd (fst (main choices w))) = userDatabase construct
  /\ fst (fst (main choices w)) = bool_decide (5%Z ∈ choices)
  /\ exists lines,
      out (snd (main choices w)) = out w ++ lines
      /\ Forall (λ l, l = NotFound "unknown_user"
                      \/ (methodOf l <> None
                          /\ userOf l ∈ ["thabo"; "matseliso"; "ntate_john"]))
                lines.
Proof.
  unfold main.
  destruct (menuLoop_users choices [] w) as (nearby' & lines & w' & Hrun & Hout & Hok).
  change construct with (mkSim (userDatabase construct) []).
  rewrite Hrun. cbn [fst snd userDatabase].
  split; [reflexivity | split; [reflexivity |]].
  exists lines. auto.
Qed.

End BiometricProgramFacts.

(** ** The voice simulator: similarity, matching, drivers and menu *)

Module VoiceProgramFacts.

Import Voice VoiceProgram.

(** *** The similarity *)

Lemma mul_comm (x y : spec_float) : Float32.mul x y = Float32.mul y x.
Proof.
  unfold Float32.mul.
  destruct x as [sx|sx| |sx mx ex], y as [sy|sy| |sy my ey]; cbn [SFmul];
    rewrite ?(xorb_comm sx sy); try reflexivity.
  now rewrite Pos.mul_comm, Z.add_comm.
Qed.

Lemma dot_comm (a b : list spec_float) (acc : spec_float) :
  fold_left (λ acc p, Float32.add acc (Float32.mul (fst p) (snd p)))
            (combine a b) acc
  = fold_left (λ acc p, Float32.add acc (Float32.mul (fst p) (snd p)))
              (combine b a) acc.
Proof.
  revert b acc. induction a as [|x a IH]; intros [|y b] acc; try reflexivity.
  cbn [combine fold_left fst snd]. rewrite (mul_comm x y). apply IH.
Qed.

(** X21: the similarity is symmetric: exchanging the two vectors gives the
    same binary32 number. *)
Theorem computeSimilarity_symmetric (a b : list spec_float) :
  computeSimilarity a b = computeSimilarity b a.
Proof.
  rewrite !VoiceFacts.computeSimilarity_dot. unfold dot.
  now rewrite dot_comm, Nat.min_comm.
Qed.

Lemma abs_cases (x : spec_float) :
  SFabs x = S754_nan \/ Float32.nonneg (SFabs x) = true.
Proof. destruct x; cbn; auto. Qed.

Lemma of_size_cases (n : nat) :
  Float32.of_size n = S754_zero false
  \/ Float32.positive_value (Float32.of_size n) = true.
Proof.
  destruct n as [|n]; [now left | right].
  apply Float32Facts.of_size_positive. lia.
Qed.

Lemma div_nonneg_cases (x y : spec_float) :
  Float32.nonneg x = true ->
  y = S754_zero false \/ Float32.positive_value y = true ->
  Float32.div x y = S754_nan \/ Float32.nonneg (Float32.div x y) = true.
Proof.
  intros Hx [-> | Hy].
  - destruct x as [s|s| |s m e]; cbn in Hx |- *; try discriminate;
      apply negb_true_iff in Hx; subst; cbn; auto.
  - destruct y as [sy|sy| |sy my ey]; cbn in Hy; try discriminate.
    + apply negb_true_iff in Hy. subst.
      destruct x as [s|s| |s m e]; cbn in Hx |- *; try discriminate;
        apply negb_true_iff in Hx; subst; cbn; auto.
    + right. apply Float32Facts.div_nonneg; [exact Hx | exact Hy].
Qed.

(** X22: the similarity is never below zero: for all vectors it is NaN or a
    number with a clear sign bit, so it never compares less than zero. *)
Theorem computeSimilarity_not_negative (a b : list spec_float) :
  (computeSimilarity a b = S754_nan
   \/ Float32.nonneg (computeSimilarity a b) = true)
  /\ SFltb (computeSimilarity a b) Float32.zero = false.
Proof.
  assert (computeSimilarity a b = S754_nan
          \/ Float32.nonneg (computeSimilarity a b) = true) as H.
  { rewrite VoiceFacts.computeSimilarity_dot.
    destruct (abs_cases (dot a b)) as [-> | Habs]; [now left |].
    apply div_nonneg_cases; [exact Habs | apply of_size_cases]. }
  split; [exact H |].
  destruct H as [-> | H]; [reflexivity |].
  destruct (computeSimilarity a b) as [s|s| |s m e]; cbn in H |- *;
    try discriminate; apply negb_true_iff in H; now subst.
Qed.

Lemma combine_app_longer (a extra b : list spec_float) :
  (length b <= length a)%nat -> combine (a ++ extra) b = combine a b.
Proof.
  revert b. induction a as [|x a IH]; intros [|y b] Hlen; cbn in *;
    try reflexivity; try lia.
  - now destruct extra.
  - f_equal. apply IH. lia.
Qed.

(** X23: what the longer vector holds beyond the length of the shorter one is
    ignored: entries appended to a vector that is already as long as the
    other do not change the similarity. *)
Theorem computeSimilarity_ignores_tail (a extra b : list spec_float) :
  (length b <= length a)%nat ->
  computeSimilarity (a ++ extra) b = computeSimilarity a b.
Proof.
  intros Hlen. rewrite !VoiceFacts.computeSimilarity_dot. unfold dot.
  rewrite (combine_app_longer a extra b Hlen), length_app.
  now rewrite !Nat.min_r by lia.
Qed.

Lemma computeSimilarity_ignores_tail_witness :
  (length [Float32.of_Z 2] <= length [Float32.of_Z 3])%nat
  /\ computeSimilarity ([Float32.of_Z 3] ++ [S754_nan]) [Float32.of_Z 2]
     = computeSimilarity [Float32.of_Z 3] [Float32.of_Z 2].
Proof.
  assert (length [Float32.of_Z 2] <= length [Float32.of_Z 3])%nat as H
      by (cbn; lia).
  split; [exact H |].
  exact (computeSimilarity_ignores_tail
           [Float32.of_Z 3] [S754_nan] [Float32.of_Z 2] H).
Defined.

Lemma add_nan_r (x : spec_float) : Float32.add x S754_nan = S754_nan.
Proof. now destruct x. Qed.

Lemma mul_nan_l (y : spec_float) : Float32.mul S754_nan y = S754_nan.
Proof. reflexivity. Qed.

Lemma dot_nan_acc (l : list (spec_float * spec_float)) :
  fold_left (λ acc p, Float32.add acc (Float32.mul (fst p) (snd p)))
            l S754_nan
  = S754_nan.
Proof. induction l as [|p l IH]; cbn [fold_left]; [reflexivity | exact IH]. Qed.

Lemma dot_nan (a b : list spec_float) (i : nat) (acc : spec_float) :
  a !! i = Some S754_nan -> (i < length b)%nat ->
  fold_left (λ acc p, Float32.add acc (Float32.mul (fst p) (snd p)))
            (combine a b) acc
  = S754_nan.
Proof.
  revert b i acc. induction a as [|x a IH]; intros [|y b] i acc Hi Hlen;
    cbn in Hlen; try discriminate; try lia.
  cbn [combine fold_left fst snd].
  destruct i as [|i].
  - cbn in Hi. injection Hi as ->.
    rewrite mul_nan_l, add_nan_r. apply dot_nan_acc.
  - apply (IH b i); [exact Hi | lia].
Qed.

Lemma div_nan_l (y : spec_float) : Float32.div S754_nan y = S754_nan.
Proof. reflexivity. Qed.

Lemma computeSimilarity_nan (a b : list spec_float) (i : nat) :
  a !! i = Some S754_nan -> (i < length b)%nat ->
  computeSimilarity a b = S754_nan.
Proof.
  intros Hi Hlen. rewrite VoiceFacts.computeSimilarity_dot. unfold dot.
  now rewrite (dot_nan a b i _ Hi Hlen).
Qed.

(** The value returned is true exactly when some model exceeds. *)
Lemma matchKeywords_exists (sim : Sim) (features : list spec_float) :
  matchKeywords sim features = true
  <-> exists model, model ∈ keywordModels sim /\ exceeds features model.
Proof.
  unfold matchKeywords.
  pose proof (VoiceFacts.scanModels_found (keywordModels sim) features) as H.
  destruct (scanModels (keywordModels sim) features) as [[|] n]; cbn [fst].
  - destruct H as (pre & model & post & Hk & _ & Hm & _).
    split; [intros _ | reflexivity].
    exists model. split; [| exact Hm].
    rewrite Hk. apply elem_of_app. right. left.
  - destruct H as [Hall _]. split; [discriminate |].
    intros (model & Hin & Hm). exfalso.
    rewrite Forall_forall in Hall. exact (Hall model Hin Hm).
Qed.

Lemma matchKeywords_none (sim : Sim) (features : list spec_float) :
  (forall model, model ∈ keywordModels sim -> ~ exceeds features model) ->
  matchKeywords sim features = false.
Proof.
  intros H. destruct (matchKeywords sim features) eqn:E; [| reflexivity].
  apply matchKeywords_exists in E as (model & Hin & Hm).
  destruct (H model Hin Hm).
Qed.

(** X24: a NaN among the features that are compared makes the similarity NaN
    and so is never a detection: with a NaN at an index that a model also
    has, the similarity to that model is NaN, and with the constructed
    models, which have 256 entries, a NaN among the first 256 features makes
    [matchKeywords] return false. *)
Theorem matchKeywords_nan (features : list spec_float) (i : nat) :
  features !! i = Some S754_nan -> (i < 256)%nat ->
  (forall model, (i < length model)%nat ->
                 computeSimilarity features model = S754_nan)
  /\ matchKeywords construct features = false.
Proof.
  intros Hi Hlt. split.
  - intros model Hlen. now apply (computeSimilarity_nan features model i).
  - apply matchKeywords_none. intros model Hin.
    pose proof VoiceFacts.construct_models as Hall.
    rewrite Forall_forall in Hall. specialize (Hall model Hin).
    unfold exceeds.
    rewrite (computeSimilarity_nan features model i Hi) by (rewrite Hall; exact Hlt).
    discriminate.
Qed.

Lemma matchKeywords_nan_witness :
  [Float32.of_Z 9; S754_nan] !! 1%nat = Some S754_nan /\ (1 < 256)%nat
  /\ matchKeywords construct [Float32.of_Z 9; S754_nan] = false.
Proof.
  assert ([Float32.of_Z 9; S754_nan] !! 1%nat = Some S754_nan) as Hi
      by reflexivity.
  assert (1 < 256)%nat as Hlt by lia.
  split; [exact Hi | split; [exact Hlt |]].
  exact (proj2 (matchKeywords_nan [Float32.of_Z 9; S754_nan] 1 Hi Hlt)).
Defined.

Lemma dot_zero_finite (a b : list spec_float) :
  Forall (λ x, Float32.is_zero x = true) a ->
  Forall (λ x, is_finite x = true) b ->
  fold_left (λ acc p, Float32.add acc (Float32.mul (fst p) (snd p)))
            (combine a b) Float32.zero
  = Float32.zero.
Proof.
  revert b. induction a as [|x a IH]; intros [|y b] Ha Hb; try reflexivity.
  apply Forall_cons in Ha as [Hx Ha]. apply Forall_cons in Hb as [Hy Hb].
  cbn [combine fold_left fst snd].
  destruct x as [sx|sx| |sx mx ex]; try discriminate.
  replace (Float32.add Float32.zero (Float32.mul (S754_zero sx) y))
    with Float32.zero;
    [now apply IH |].
  destruct y as [sy|sy| |sy my ey]; try discriminate; now destruct sx, sy.
Qed.

(** X25: silence is never a keyword: when every feature is zero (of either
    sign, or there is no feature at all) and the models hold finite weights,
    as the constructed ones do, [matchKeywords] returns false. *)
Theorem matchKeywords_silence (sim : Sim) (features : list spec_float) :
  Forall (Forall (λ x, is_finite x = true)) (keywordModels sim) ->
  Forall (λ x, Float32.is_zero x = true) features ->
  matchKeywords sim features = false.
Proof.
  intros Hfin Hzero. apply matchKeywords_none. intros model Hin.
  rewrite Forall_forall in Hfin. specialize (Hfin model Hin).
  unfold exceeds. rewrite VoiceFacts.computeSimilarity_dot. unfold dot.
  rewrite (dot_zero_finite features model Hzero Hfin).
  change (SFabs Float32.zero) with Float32.zero.
  destruct (of_size_cases (Nat.min (length features) (length model)))
    as [-> | Hpos]; [discriminate |].
  rewrite (Float32Facts.div_zero_positive _ Hpos). discriminate.
Qed.

Lemma construct_finite :
  Forall (Forall (λ x, is_finite x = true)) (keywordModels construct).
Proof.
  unfold construct, initializeKeywordModels. cbn [keywordModels app].
  do 3 (apply List.Forall_cons;
        [apply Forall_forall; intros x Hx;
         apply list_elem_of_In, repeat_spec in Hx;
         subst x; vm_compute; reflexivity |]).
  apply List.Forall_nil.
Qed.

Lemma matchKeywords_silence_witness :
  Forall (Forall (λ x, is_finite x = true)) (keywordModels construct)
  /\ Forall (λ x, Float32.is_zero x = true) (repeat Float32.zero 256)
  /\ matchKeywords construct (repeat Float32.zero 256) = false.
Proof.
  assert (Forall (λ x, Float32.is_zero x = true) (repeat Float32.zero 256))
    as Hz.
  { apply Forall_forall. intros x Hx.
    apply list_elem_of_In, repeat_spec in Hx. now subst x. }
  split; [exact construct_finite | split; [exact Hz |]].
  exact (matchKeywords_silence construct _ construct_finite Hz).
Defined.

(** X26: only which models are present matters to [matchKeywords]: a
    detection stays a detection when models are added, reordered or
    repeated; in particular running [initializeKeywordModels] a second time,
    which pushes the three models again, changes no result. *)
Theorem matchKeywords_models (sim sim' : Sim) (features : list spec_float) :
  (keywordModels sim ⊆ keywordModels sim' ->
   matchKeywords sim features = true -> matchKeywords sim' features = true)
  /\ matchKeywords (initializeKeywordModels construct) features
     = matchKeywords construct features
  /\ length (keywordModels (initializeKeywordModels sim))
     = (length (keywordModels sim) + 3)%nat.
Proof.
  split; [| split].
  - intros Hsub. rewrite !matchKeywords_exists.
    intros (model & Hin & Hm). exists model. split; [now apply Hsub | exact Hm].
  - apply eq_true_iff_eq. rewrite !matchKeywords_exists.
    split; intros (model & Hin & Hm); exists model; (split; [| exact Hm]).
    + change (keywordModels (initializeKeywordModels construct))
        with (keywordModels construct ++ keywordModels construct) in Hin.
      apply elem_of_app in Hin. tauto.
    + change (keywordModels (initializeKeywordModels construct))
        with (keywordModels construct ++ keywordModels construct).
      apply elem_of_app. now left.
  - unfold initializeKeywordModels. cbn [keywordModels].
    rewrite length_app. reflexivity.
Qed.

Lemma matchKeywords_models_witness :
  keywordModels construct ⊆ keywordModels (initializeKeywordModels construct)
  /\ matchKeywords construct (repeat (Float32.of_Z 9) 256) = true
  /\ matchKeywords (initializeKeywordModels construct)
                   (repeat (Float32.of_Z 9) 256) = true.
Proof.
  assert (matchKeywords construct (repeat (Float32.of_Z 9) 256) = true) as Hyes
      by (vm_compute; reflexivity).
  assert (keywordModels construct
            ⊆ keywordModels (initializeKeywordModels construct)) as Hsub.
  { unfold initializeKeywordModels. cbn [keywordModels].
    intros m Hm. apply elem_of_app. now left. }
  split; [exact Hsub | split; [exact Hyes |]].
  exact (proj1 (matchKeywords_models construct (initializeKeywordModels construct)
                  (repeat (Float32.of_Z 9) 256)) Hsub Hyes).
Defined.

(** *** The test drivers *)

Lemma detect_run (sim : Sim) (w : World) :
  detect sim w
  = ((matchKeywords sim (extractFeatures (generators w (S (seeded w)))),
      simulateAudioCapture (generators w (seeded w)) sim),
     mkWorld (generators w) (S (S (seeded w))) (shown w)).
Proof. reflexivity. Qed.

(** X27: a detection round decides on the extracted features alone: two
    rounds with the same keyword models and the same draws of the feature
    generator return the same result, whatever audio is captured and
    whatever the buffer held.  The round leaves the keyword models as they
    were and the buffer with exactly 1024 samples. *)
Theorem detect_ignores_audio (sim sim' : Sim) (w w' : World) :
  keywordModels sim = keywordModels sim' ->
  generators w (S (seeded w)) = generators w' (S (seeded w')) ->
  fst (fst (detect sim w)) = fst (fst (detect sim' w'))
  /\ keywordModels (snd (fst (detect sim w))) = keywordModels sim
  /\ length (audioBuffer (snd (fst (detect sim w)))) = 1024%nat.
Proof.
  intros Hm Hg. rewrite !detect_run. cbn [fst snd].
  split; [| split].
  - unfold matchKeywords. now rewrite Hm, Hg.
  - reflexivity.
  - unfold simulateAudioCapture. cbn [audioBuffer app].
    now rewrite length_map, length_seq.
Qed.

Lemma detect_ignores_audio_witness :
  keywordModels construct
  = keywordModels (simulateAudioCapture (fun _ => Float32.of_Z 1) construct)
  /\ generators (mkWorld (fun _ _ => Float32.zero) 0 []) 1
     = generators (mkWorld (fun k _ => Float32.of_Z (Z.of_nat k - 3)) 2 []) 3
  /\ fst (fst (detect construct (mkWorld (fun _ _ => Float32.zero) 0 [])))
     = fst (fst (detect
                   (simulateAudioCapture (fun _ => Float32.of_Z 1) construct)
                   (mkWorld (fun k _ => Float32.of_Z (Z.of_nat k - 3)) 2 []))).
Proof.
  assert (keywordModels construct
          = keywordModels
              (simulateAudioCapture (fun _ => Float32.of_Z 1) construct))
    as Hm by reflexivity.
  assert (generators (mkWorld (fun _ _ => Float32.zero) 0 []) 1
          = generators (mkWorld (fun k _ => Float32.of_Z (Z.of_nat k - 3)) 2 []) 3)
    as Hg by reflexivity.
  split; [exact Hm | split; [exact Hg |]].
  exact (proj1 (detect_ignores_audio _ _ _ _ Hm Hg)).
Defined.

Lemma detectionTests_run (todo i : nat) (detections : Z) (sim : Sim) (w : World) :
  exists events sim',
    detectionTests todo i detections sim w
    = ((detections + detectedCount events, sim')%Z,
       mkWorld (generators w) (seeded w + 2 * todo) (shown w ++ events))
    /\ length events = todo
    /\ ratesOf events = []
    /\ keywordModels sim' = keywordModels sim
    /\ (todo <> 0%nat -> length (audioBuffer sim') = 1024%nat).
Proof.
  revert i detections sim w.
  induction todo as [|todo IH]; intros i c sim w; cbn [detectionTests].
  - exists [], sim. unfold mret, io_ret, detectedCount. cbn.
    rewrite Z.add_0_r, Nat.add_0_r, app_nil_r.
    split; [now destruct w |].
    split; [reflexivity |]. split; [reflexivity |]. split; [reflexivity |].
    congruence.
  - unfold mbind, io_bind, show, mret, io_ret. rewrite detect_run.
    cbn [fst snd generators seeded shown].
    set (b := matchKeywords sim _).
    set (sim1 := simulateAudioCapture _ sim).
    destruct (IH (S i) (if b then c + 1 else c)%Z sim1
                (mkWorld (generators w) (S (S (seeded w)))
                         (shown w ++ [Test i b])))
      as (events & sim' & Hrun & Hlen & Hrates & Hk & Hbuf).
    rewrite Hrun. cbn [generators seeded shown].
    exists (Test i b :: events), sim'.
    split; [| split; [cbn; lia | split; [exact Hrates | split]]].
    + rewrite <- app_assoc. cbn [app]. f_equal; [| f_equal; lia].
      f_equal. unfold detectedCount. cbn [List.filter isDetection].
      destruct b; cbn [length]; lia.
    + now rewrite Hk.
    + intros _. destruct todo as [|todo'].
      * cbn [detectionTests] in Hrun. unfold mret, io_ret in Hrun.
        injection Hrun as _ <- _. subst sim1.
        unfold simulateAudioCapture. cbn [audioBuffer app].
        now rewrite length_map, length_seq.
      * apply Hbuf. discriminate.
Qed.

Lemma detectedCount_bounds (events : list Event) :
  (0 <= detectedCount events <= Z.of_nat (length events))%Z.
Proof.
  unfold detectedCount. pose proof (List.filter_length_le isDetection events).
  lia.
Qed.

Lemma testKeywordDetection_run (sim : Sim) (w : World) :
  exists events sim',
    testKeywordDetection sim w
    = (sim',
       mkWorld (generators w) (seeded w + 20)
               (shown w ++ events
                  ++ [DetectionRate (detectedCount events) 10
                                    (10 * detectedCount events)]))
    /\ length events = 10%nat
    /\ ratesOf events = []
    /\ keywordModels sim' = keywordModels sim
    /\ length (audioBuffer sim') = 1024%nat.
Proof.
  unfold testKeywordDetection, mbind, io_bind, show, mret, io_ret.
  destruct (detectionTests_run 10 0 0 sim w)
    as (events & sim' & Hrun & Hlen & Hrates & Hk & Hbuf).
  rewrite Hrun. cbn [fst snd generators seeded shown].
  exists events, sim'.
  split; [| split; [exact Hlen | split; [exact Hrates | split;
                                         [exact Hk | now apply Hbuf]]]].
  rewrite Z.add_0_l, <- app_assoc.
  replace (Z.quot (detectedCount events * 100) 10)
    with (10 * detectedCount events)%Z; [reflexivity |].
  replace (detectedCount events * 100)%Z
    with (10 * detectedCount events * 10)%Z by lia.
  symmetry. apply Z.quot_mul. lia.
Qed.

(** X28: the keyword-detection test runs ten rounds, seeding twenty
    generators, and prints one line per round and then the rate; the count
    it reports is the number of rounds printed as detected, from 0 to 10, and
    the percentage is ten times the count.  It leaves the keyword models as
    they were and the audio buffer with 1024 samples. *)
Theorem testKeywordDetection_rate (sim : Sim) (w : World) :
  exists events sim',
    testKeywordDetection sim w
    = (sim',
       mkWorld (generators w) (seeded w + 20)
               (shown w ++ events
                  ++ [DetectionRate (detectedCount events) 10
                                    (10 * detectedCount events)]))
    /\ length events = 10%nat
    /\ (0 <= detectedCount events <= 10)%Z
    /\ keywordModels sim' = keywordModels sim
    /\ length (audioBuffer sim') = 1024%nat.
Proof.
  destruct (testKeywordDetection_run sim w)
    as (events & sim' & Hrun & Hlen & _ & Hk & Hbuf).
  exists events, sim'. repeat split; auto.
  - apply detectedCount_bounds.
  - pose proof (detectedCount_bounds events). lia.
Qed.

Lemma processFrames_run (todo frame : nat) (sim : Sim) (w : World) :
  exists events sim',
    processFrames todo frame sim w
    = (sim', mkWorld (generators w) (seeded w + 2 * todo) (shown w ++ events))
    /\ ratesOf events = []
    /\ keywordModels sim' = keywordModels sim.
Proof.
  revert frame sim w.
  induction todo as [|todo IH]; intros frame sim w; cbn [processFrames].
  - exists [], sim. unfold mret, io_ret.
    rewrite Nat.add_0_r, app_nil_r. split; [now destruct w | auto].
  - unfold mbind, io_bind, show, mret, io_ret. rewrite detect_run.
    cbn [fst snd generators seeded shown].
    set (b := matchKeywords sim _).
    set (sim1 := simulateAudioCapture _ sim).
    destruct (IH (S frame) sim1
                (mkWorld (generators w) (S (S (seeded w)))
                         (shown w ++ [Frame frame b])))
      as (events & sim' & Hrun & Hrates & Hk).
    rewrite Hrun. cbn [generators seeded shown].
    exists (Frame frame b :: events), sim'.
    split; [| split; [exact Hrates | now rewrite Hk]].
    rewrite <- app_assoc. cbn [app]. f_equal. f_equal. lia.
Qed.

(** *** The menu *)

Lemma dispatch_models (choice : Z) (sim : Sim) (w : World) :
  exists events sim' n,
    dispatch choice sim w
    = (sim', mkWorld (generators w) (seeded w + n) (shown w ++ events))
    /\ keywordModels sim' = keywordModels sim
    /\ Forall (λ r, snd (fst r) = 10%Z
                    /\ (0 <= fst (fst r) <= 10)%Z
                    /\ snd r = (10 * fst (fst r))%Z)
              (ratesOf events).
Proof.
  unfold dispatch.
  destruct (choice =? 1)%Z.
  { destruct (processFrames_run 8 0 sim w) as (events & sim' & Hrun & Hr & Hk).
    exists events, sim', 16%nat. unfold testRealTimeProcessing.
    split; [exact Hrun | split; [exact Hk |]].
    rewrite Hr. apply List.Forall_nil. }
  destruct (choice =? 2)%Z.
  { destruct (testKeywordDetection_run sim w)
      as (events & sim' & Hrun & Hlen & Hr & Hk & _).
    eexists. exists sim', 20%nat.
    split; [exact Hrun | split; [exact Hk |]].
    unfold ratesOf in *. rewrite omap_app, Hr. cbn.
    apply List.Forall_cons; [| apply List.Forall_nil]. cbn.
    pose proof (detectedCount_bounds events). lia. }
  destruct (choice =? 3)%Z;
    [| destruct (choice =? 4)%Z];
    eexists; exists sim, 0%nat;
    (split; [unfold mbind, io_bind, show, mret, io_ret;
             rewrite Nat.add_0_r; reflexivity |]);
    (split; [reflexivity | apply List.Forall_nil]).
Qed.

Lemma menuLoop_models (choices : list Z) (sim : Sim) (w : World) :
  exists events sim' n,
    menuLoop choices sim w
    = ((bool_decide (4%Z ∈ choices), sim'),
       mkWorld (generators w) (seeded w + n) (shown w ++ events))
    /\ keywordModels sim' = keywordModels sim
    /\ Forall (λ r, snd (fst r) = 10%Z
                    /\ (0 <= fst (fst r) <= 10)%Z
                    /\ snd r = (10 * fst (fst r))%Z)
              (ratesOf events).
Proof.
  revert sim w. induction choices as [|choice rest IH]; intros sim w;
    cbn [menuLoop].
  - exists [], sim, 0%nat. unfold mret, io_ret.
    rewrite Nat.add_0_r, app_nil_r.
    split; [now destruct w | split; [reflexivity | apply List.Forall_nil]].
  - unfold mbind, io_bind.
    destruct (dispatch_models choice sim w)
      as (events1 & sim1 & n1 & -> & Hk1 & Hr1).
    destruct (Z.eqb_spec choice 4) as [-> | Hne].
    + exists events1, sim1, n1. unfold mret, io_ret.
      rewrite bool_decide_eq_true_2 by left. auto.
    + destruct (IH sim1 (mkWorld (generators w) (seeded w + n1)
                                 (shown w ++ events1)))
        as (events2 & sim2 & n2 & -> & Hk2 & Hr2).
      cbn [generators seeded shown].
      exists (events1 ++ events2), sim2, (n1 + n2)%nat.
      split; [| split].
      * rewrite <- app_assoc, Nat.add_assoc. f_equal. f_equal.
        apply bool_decide_ext. rewrite elem_of_cons. intuition congruence.
      * now rewrite Hk2.
      * unfold ratesOf in *. rewrite omap_app. now apply Forall_app.
Qed.

(** X29: through every sequence of menu choices and whatever the draws, the
    keyword models stay as constructed.  The loop is left exactly when a 4
    is read; what was printed stays printed; and every detection rate the
    program prints is over ten tests, with a count from 0 to 10 and a
    percentage of ten times the count. *)
Theorem main_keeps_models (choices : list Z) (w : World) :
  keywordModels (snd (fst (main choices w))) = keywordModels construct
  /\ fst (fst (main choices w)) = bool_decide (4%Z ∈ choices)
  /\ exists events,
      shown (snd (main choices w)) = shown w ++ events
      /\ Forall (λ r, snd (fst r) = 10%Z
                      /\ (0 <= fst (fst r) <= 10)%Z
                      /\ snd r = (10 * fst (fst r))%Z)
                (ratesOf events).
Proof.
  unfold main.
  destruct (menuLoop_models choices construct w)
    as (events & sim' & n & -> & Hk & Hr).
  cbn [fst snd shown].
  split; [exact Hk | split; [reflexivity |]].
  exists events. auto.
Qed.

End VoiceProgramFacts.
